(** * The research pipeline of ai-data-scientist-agent

    A shallow embedding of the three stages of the pipeline,
    [DataScraper.scrape] (data_scraper.py), [DataAnalyzer.analyze]
    (data_analyzer.py) and [ReportGenerator.generate] (report_generator.py),
    and the properties of their partial-failure behaviour.

    Python values are embedded as a JSON-like universe [pyval]; a [dict] is
    an association list in insertion order, which is the order [items()]
    iterates in.  Code that can raise lives in the [result] monad, and a
    [try ... except Exception] block is [try_except].  The collaborators
    outside the repository (the HTTP fetch, the generative backend,
    [json.loads], the clock) are parameters of the functions that call
    them.

    Two limits of the embedding are stated where they matter.  The values
    are the JSON ones, with string keys and no tuple.  And
    report_generator.py does not load as it stands in the repository: see
    the module [Report]. *)

From Stdlib Require Import String Ascii List ZArith Bool Lia DecimalString.
Import ListNotations.
Local Open Scope list_scope.
Local Open Scope string_scope.

(** ** Strings

    A Python [str] is embedded as a Rocq [string], one [ascii] per
    character.  The case mappings below are those of Python on ASCII
    text; they leave a character above 127 as it is, which Python does
    not, so a statement that depends on the case of a text is made for
    ASCII text. *)

Module Str.

Definition nl : string := String (ascii_of_nat 10) EmptyString.

Definition is_upper (c : ascii) : bool :=
  let n := nat_of_ascii c in (65 <=? n)%nat && (n <=? 90)%nat.

Definition is_lower (c : ascii) : bool :=
  let n := nat_of_ascii c in (97 <=? n)%nat && (n <=? 122)%nat.

Definition is_cased (c : ascii) : bool := is_upper c || is_lower c.

Definition to_upper (c : ascii) : ascii :=
  if is_lower c then ascii_of_nat (nat_of_ascii c - 32) else c.

Definition to_lower (c : ascii) : ascii :=
  if is_upper c then ascii_of_nat (nat_of_ascii c + 32) else c.

Fixpoint map_chars (f : ascii -> ascii) (s : string) : string :=
  match s with
  | EmptyString => EmptyString
  | String c s' => String (f c) (map_chars f s')
  end.

(** [s.upper()] and [s.lower()] *)
Definition upper : string -> string := map_chars to_upper.
Definition lower : string -> string := map_chars to_lower.

(** [s.capitalize()]: first character upper-cased, the rest lower-cased. *)
Definition capitalize (s : string) : string :=
  match s with
  | EmptyString => EmptyString
  | String c s' => String (to_upper c) (lower s')
  end.

(** [s.title()]: a cased character is upper-cased when the character before
    it is not cased, and lower-cased otherwise. *)
Fixpoint title_from (prev_cased : bool) (s : string) : string :=
  match s with
  | EmptyString => EmptyString
  | String c s' =>
      String (if prev_cased then to_lower c else to_upper c)
             (title_from (is_cased c) s')
  end.

Definition title : string -> string := title_from false.

(** [s.replace(c, r)] for a one-character pattern [c]. *)
Fixpoint replace (c : ascii) (r : string) (s : string) : string :=
  match s with
  | EmptyString => EmptyString
  | String a s' =>
      if Ascii.eqb a c then r ++ replace c r s' else String a (replace c r s')
  end.

(** [s[:n]] *)
Fixpoint take (n : nat) (s : string) : string :=
  match n, s with
  | O, _ => EmptyString
  | _, EmptyString => EmptyString
  | S n', String c s' => String c (take n' s')
  end.

(** [sep.join(l)] on a list of strings *)
Definition join (sep : string) (l : list string) : string := String.concat sep l.

(** the characters of a string, each as a one-character string *)
Fixpoint chars (s : string) : list string :=
  match s with
  | EmptyString => []
  | String c s' => String c EmptyString :: chars s'
  end.

Fixpoint mem_char (c : ascii) (s : string) : bool :=
  match s with
  | EmptyString => false
  | String a s' => Ascii.eqb a c || mem_char c s'
  end.

(** [str(z)] for an [int] *)
Definition of_Z (z : Z) : string := NilZero.string_of_int (Z.to_int z).

Definition hex_digit (n : nat) : ascii :=
  if (n <? 10)%nat then ascii_of_nat (48 + n) else ascii_of_nat (87 + n).

(** [repr(s)] for a [str]: single quotes unless the text has a single quote
    and no double quote; backslash, the chosen quote, tab, newline and
    carriage return are escaped, other control characters are written
    [\xhh]. *)
Definition repr_quote (s : string) : ascii :=
  if mem_char "'"%char s && negb (mem_char "034"%char s) then "034"%char else "'"%char.

Definition printable (n : nat) : bool :=
  ((32 <=? n)%nat && (n <? 127)%nat) || ((161 <=? n)%nat && negb (n =? 173)%nat).

Fixpoint repr_body (q : ascii) (s : string) : string :=
  match s with
  | EmptyString => EmptyString
  | String c s' =>
      let n := nat_of_ascii c in
      (if Ascii.eqb c "\"%char || Ascii.eqb c q then String "\"%char (String c EmptyString)
       else if (n =? 9)%nat then "\t"
       else if (n =? 10)%nat then "\n"
       else if (n =? 13)%nat then "\r"
       else if printable n then String c EmptyString
       else String "\"%char (String "x"%char
              (String (hex_digit (n / 16)) (String (hex_digit (n mod 16)) EmptyString))))
      ++ repr_body q s'
  end.

Definition repr (s : string) : string :=
  let q := repr_quote s in String q (repr_body q s ++ String q EmptyString).

End Str.

Definition nl : string := Str.nl.

(** ** Python values *)

Set Warnings "-register-all".

Inductive pyval : Type :=
| PNone
| PBool (b : bool)
| PInt (z : Z)
| PFloat (nonzero : bool) (text : string)
    (* a float, through the two observations the pipeline makes of it:
       its truth value and its [str()] *)
| PStr (s : string)
| PList (l : list pyval)
| PDict (d : list (string * pyval)).

Definition pydict := list (string * pyval).

(** [bool(v)] *)
Definition truthy (v : pyval) : bool :=
  match v with
  | PNone => false
  | PBool b => b
  | PInt z => negb (z =? 0)%Z
  | PFloat nz _ => nz
  | PStr s => negb (String.eqb s "")
  | PList l => match l with [] => false | _ => true end
  | PDict d => match d with [] => false | _ => true end
  end.

(** [type(v).__name__] *)
Definition type_name (v : pyval) : string :=
  match v with
  | PNone => "NoneType"
  | PBool _ => "bool"
  | PInt _ => "int"
  | PFloat _ _ => "float"
  | PStr _ => "str"
  | PList _ => "list"
  | PDict _ => "dict"
  end.

Definition is_dict (v : pyval) : bool :=
  match v with PDict _ => true | _ => false end.

(** [repr(v)] and [str(v)]; an f-string field [{v}] formats as [str(v)]. *)
Fixpoint py_repr (v : pyval) : string :=
  match v with
  | PNone => "None"
  | PBool true => "True"
  | PBool false => "False"
  | PInt z => Str.of_Z z
  | PFloat _ t => t
  | PStr s => Str.repr s
  | PList l => "[" ++ Str.join ", " (map py_repr l) ++ "]"
  | PDict d =>
      "{" ++ Str.join ", "
               (map (fun kv => match kv with
                               | (k, x) => Str.repr k ++ ": " ++ py_repr x
                               end) d) ++ "}"
  end.

Definition py_str (v : pyval) : string :=
  match v with
  | PStr s => s
  | _ => py_repr v
  end.

(** ** Dictionaries in insertion order *)

Module Dict.

(** [d.get(k)], [None] standing for the missing key *)
Fixpoint lookup (k : string) (d : pydict) : option pyval :=
  match d with
  | [] => None
  | (k', v) :: d' => if String.eqb k' k then Some v else lookup k d'
  end.

(** [d.get(k, default)] *)
Definition get (k : string) (default : pyval) (d : pydict) : pyval :=
  match lookup k d with
  | Some v => v
  | None => default
  end.

(** [k in d] *)
Definition mem (k : string) (d : pydict) : bool :=
  match lookup k d with Some _ => true | None => false end.

(** [d[k] = v]: an existing key keeps its position, a new one goes last. *)
Fixpoint set (k : string) (v : pyval) (d : pydict) : pydict :=
  match d with
  | [] => [(k, v)]
  | (k', v') :: d' =>
      if String.eqb k' k then (k, v) :: d' else (k', v') :: set k v d'
  end.

Definition keys (d : pydict) : list string := map fst d.

End Dict.

(** ** Exceptions *)

Inductive exc : Type :=
| TypeError (msg : string)
| AttributeError (msg : string)
| ConnectionError (msg : string)
| BackendError (msg : string).

(** [str(e)] *)
Definition exc_str (e : exc) : string :=
  match e with
  | TypeError m | AttributeError m | ConnectionError m | BackendError m => m
  end.

Inductive result (A : Type) : Type :=
| Ok (a : A)
| Raise (e : exc).

Arguments Ok {A} a.
Arguments Raise {A} e.

Definition bind {A B} (c : result A) (k : A -> result B) : result B :=
  match c with
  | Ok a => k a
  | Raise e => Raise e
  end.

Notation "x <- c ;; k" := (bind c (fun x => k))
  (at level 61, c at next level, right associativity).

(** [try: c  except Exception as e: handler e] *)
Definition try_except {A} (c : result A) (handler : exc -> result A) : result A :=
  match c with
  | Ok a => Ok a
  | Raise e => handler e
  end.

(** [obj.attr] on a value that has no such attribute *)
Definition no_attribute {A} (v : pyval) (attr : string) : result A :=
  Raise (AttributeError ("'" ++ type_name v ++ "' object has no attribute '" ++ attr ++ "'")).

(** [v.get(k, default)]: defined on a [dict] only *)
Definition py_get (v : pyval) (k : string) (default : pyval) : result pyval :=
  match v with
  | PDict d => Ok (Dict.get k default d)
  | _ => no_attribute v "get"
  end.

(** [v.items()] *)
Definition py_items (v : pyval) : result pydict :=
  match v with
  | PDict d => Ok d
  | _ => no_attribute v "items"
  end.

(** [len(v)] *)
Definition py_len (v : pyval) : result Z :=
  match v with
  | PStr s => Ok (Z.of_nat (String.length s))
  | PList l => Ok (Z.of_nat (List.length l))
  | PDict d => Ok (Z.of_nat (List.length d))
  | _ => Raise (TypeError ("object of type '" ++ type_name v ++ "' has no len()"))
  end.

(** [sep.join(v)]: [v] is iterated (a [dict] gives its keys, a [str] its
    characters) and every item has to be a [str].  [v] is one of the JSON
    values: a tuple or another iterable of strings, which Python joins as
    well, is not among them. *)
Fixpoint join_items (i : nat) (l : list pyval) : result (list string) :=
  match l with
  | [] => Ok []
  | PStr s :: l' => rest <- join_items (S i) l' ;; Ok (s :: rest)
  | v :: _ =>
      Raise (TypeError ("sequence item " ++ Str.of_Z (Z.of_nat i)
                        ++ ": expected str instance, " ++ type_name v ++ " found"))
  end.

Definition py_join (sep : string) (v : pyval) : result string :=
  match v with
  | PStr s => Ok (Str.join sep (Str.chars s))
  | PList l => items <- join_items 0 l ;; Ok (Str.join sep items)
  | PDict d => Ok (Str.join sep (Dict.keys d))
  | _ => Raise (TypeError "can only join an iterable")
  end.

(** ** data_scraper.py *)

Module Scraper.

(** What [_scrape_wikipedia] reads of the HTTP exchange: the status code
    and, when the parsed page has a [div] with id [mw-content-container],
    the text of each of its [p] elements (a found tag is truthy whatever
    its contents).  [Raise] stands for any exception of the request or of
    the HTML parser. *)
Record page : Type := {
  status_code : Z;
  content_div : option (list string)
}.

(** The three source methods of the class, which [scrape] calls through
    [self]. *)
Record DataScraper : Type := {
  _scrape_wikipedia : string -> result pyval;
  _scrape_google_search : string -> result pyval;
  _scrape_company_info : string -> result pyval
}.

(** The local [data] of [scrape]. *)
Record collection : Type := {
  query : string;
  timestamp : string;
  sources : list pyval;
  raw_content : pydict
}.

Definition to_dict (data : collection) : pydict :=
  [("query", PStr (query data));
   ("timestamp", PStr (timestamp data));
   ("sources", PList (sources data));
   ("raw_content", PDict (raw_content data))].

(** [data['sources'].append(name); data['raw_content'][key] = content] *)
Definition add_source (name key : string) (content : pyval) (data : collection)
  : collection :=
  {| query := query data;
     timestamp := timestamp data;
     sources := (sources data ++ [PStr name])%list;
     raw_content := Dict.set key content (raw_content data) |}.

Definition scrape (self : DataScraper) (now : string) (q : string) : result pyval :=
  let data := {| query := q; timestamp := now; sources := []; raw_content := [] |} in
  wiki_data <- _scrape_wikipedia self q ;;
  let data := if truthy wiki_data
              then add_source "Wikipedia" "wikipedia" wiki_data data else data in
  google_data <- _scrape_google_search self q ;;
  let data := if truthy google_data
              then add_source "Google Search" "google" google_data data else data in
  company_data <- _scrape_company_info self q ;;
  let data := if truthy company_data
              then add_source "Company Database" "company" company_data data else data in
  Ok (PDict (to_dict data)).

Definition wikipedia (requests_get : string -> result page) (q : string)
  : result pyval :=
  try_except
    (let url := "https://en.wikipedia.org/wiki/" ++ Str.replace " " "_" q in
     response <- requests_get url ;;
     if (status_code response =? 200)%Z then
       match content_div response with
       | Some paragraphs =>
           let text := Str.join " " (firstn 5 paragraphs) in
           Ok (PDict [("title", PStr q); ("content", PStr text)])
       | None => Ok PNone
       end
     else Ok PNone)
    (fun _ => Ok PNone).

Definition search_result (title url snippet : string) : pyval :=
  PDict [("title", PStr title); ("url", PStr url); ("snippet", PStr snippet)].

Definition google_search (q : string) : result pyval :=
  try_except
    (Ok (PList
       [search_result (q ++ " - Official Information")
                      ("https://example.com/search?q=" ++ q)
                      ("Information about " ++ q ++ " from official sources.");
        search_result (q ++ " - LinkedIn Profile")
                      ("https://linkedin.com/in/" ++ Str.replace " " "" (Str.lower q))
                      ("Professional details about " ++ q ++ ".");
        search_result (q ++ " - Recent News")
                      ("https://news.google.com/search?q=" ++ q)
                      ("Latest news and updates about " ++ q ++ ".")]))
    (fun _ => Ok (PList [])).

Definition company_info (q : string) : result pyval :=
  try_except
    (Ok (PDict
       [("name", PStr q);
        ("founded", PStr "Unknown");
        ("industry", PStr "Technology");
        ("employees", PStr "Unknown");
        ("revenue", PStr "Unknown");
        ("description", PStr ("Company information for " ++ q))]))
    (fun _ => Ok PNone).

(** The class as the source defines it. *)
Definition Default (requests_get : string -> result page) : DataScraper :=
  {| _scrape_wikipedia := wikipedia requests_get;
     _scrape_google_search := google_search;
     _scrape_company_info := company_info |}.

(** [validate_data] *)
Definition validate_data (data : pydict) : bool :=
  forallb (fun key => Dict.mem key data) ["query"; "sources"; "raw_content"].

(** The display name [scrape] lists for each [raw_content] key. *)
Definition source_names : list (string * string) :=
  [("Wikipedia", "wikipedia");
   ("Google Search", "google");
   ("Company Database", "company")].

End Scraper.

(** ** data_analyzer.py *)

Module Analyzer.

(** The five dimensions, in the order [analyze] attempts them. *)
Inductive dimension : Type :=
| financial | history | industry | swot | predictions.

Definition dimensions : list dimension :=
  [financial; history; industry; swot; predictions].

(** The key of a dimension in [insights['analysis']]. *)
Definition key (d : dimension) : string :=
  match d with
  | financial => "financial"
  | history => "history"
  | industry => "industry"
  | swot => "swot"
  | predictions => "predictions"
  end.

Definition indent : string := "            ".

(** The prompt templates: the shared context, two newlines, and the
    instruction block of the dimension. *)
Definition instruction (d : dimension) : string :=
  match d with
  | financial =>
      "Based on the above information, provide a detailed financial analysis including:" ++ nl ++
      indent ++ "- Revenue trends" ++ nl ++
      indent ++ "- Profitability metrics" ++ nl ++
      indent ++ "- Financial health indicators" ++ nl ++
      indent ++ "- Investment potential" ++ nl ++
      indent ++ nl ++
      indent ++ "Format as JSON with keys: revenue, profitability, health, investment_rating"
  | history =>
      "Provide a historical analysis including:" ++ nl ++
      indent ++ "- Key milestones" ++ nl ++
      indent ++ "- Company evolution" ++ nl ++
      indent ++ "- Major achievements" ++ nl ++
      indent ++ "- Turning points" ++ nl ++
      indent ++ nl ++
      indent ++ "Format as detailed narrative."
  | industry =>
      "Analyze the industry and market including:" ++ nl ++
      indent ++ "- Industry trends" ++ nl ++
      indent ++ "- Market position" ++ nl ++
      indent ++ "- Competitive landscape" ++ nl ++
      indent ++ "- Growth opportunities" ++ nl ++
      indent ++ nl ++
      indent ++ "Format as structured analysis."
  | swot =>
      "Perform a SWOT analysis providing:" ++ nl ++
      indent ++ "- Strengths (at least 3)" ++ nl ++
      indent ++ "- Weaknesses (at least 3)" ++ nl ++
      indent ++ "- Opportunities (at least 3)" ++ nl ++
      indent ++ "- Threats (at least 3)" ++ nl ++
      indent ++ nl ++
      indent ++ "Format as JSON."
  | predictions =>
      "Based on the analysis, provide:" ++ nl ++
      indent ++ "- Future outlook (next 1-3 years)" ++ nl ++
      indent ++ "- Key growth drivers" ++ nl ++
      indent ++ "- Risk factors" ++ nl ++
      indent ++ "- Strategic recommendations" ++ nl ++
      indent ++ nl ++
      indent ++ "Format as structured predictions."
  end.

Definition prompt (d : dimension) (context : string) : string :=
  context ++ nl ++ nl ++ instruction d.

(** [for key, val in content.items(): context += f"{key}: {val}\n"] *)
Definition add_fields (context : string) (content : pydict) : string :=
  fold_left (fun context kv => context ++ fst kv ++ ": " ++ py_str (snd kv) ++ nl)
            content context.

(** One turn of the loop of [_prepare_context] over [raw_content]. *)
Definition add_source_excerpt (context : string) (entry : string * pyval) : string :=
  let (source, content) := entry in
  let context := context ++ nl ++ Str.upper source ++ ":" ++ nl in
  match content with
  | PDict fields => add_fields context fields
  | _ => context ++ Str.take 500 (py_str content) ++ "..." ++ nl
  end.

Definition _prepare_context (data : pydict) : result string :=
  let context := "Analyze the following information:" ++ nl ++ nl in
  let context :=
    context ++ "Query: " ++ py_str (Dict.get "query" (PStr "Unknown") data) ++ nl in
  joined <- py_join ", " (Dict.get "sources" (PList []) data) ;;
  let context := context ++ "Sources: " ++ joined ++ nl ++ nl in
  items <- py_items (Dict.get "raw_content" (PDict []) data) ;;
  Ok (fold_left add_source_excerpt items context).

(** [_error_insights]; [now] is the clock reading it takes. *)
Definition _error_insights (now : string) (data : pydict) (error : string)
  : result pyval :=
  Ok (PDict
    [("timestamp", PStr now);
     ("query", Dict.get "query" PNone data);
     ("error", PStr error);
     ("analysis", PDict
        [("status", PStr "Analysis incomplete");
         ("message", PStr ("Analysis failed: " ++ error))])]).

(** The local [insights] of [analyze]. *)
Record insight_record : Type := {
  timestamp : string;
  query : pyval;
  sources_analyzed : Z;
  analysis : pydict
}.

Definition to_dict (insights : insight_record) : pydict :=
  [("timestamp", PStr (timestamp insights));
   ("query", query insights);
   ("sources_analyzed", PInt (sources_analyzed insights));
   ("analysis", PDict (analysis insights))].

(** [if result: insights['analysis'][k] = result] *)
Definition store (k : string) (result : pyval) (insights : insight_record)
  : insight_record :=
  if truthy result then
    {| timestamp := timestamp insights;
       query := query insights;
       sources_analyzed := sources_analyzed insights;
       analysis := Dict.set k result (analysis insights) |}
  else insights.

Section Backend.

(** [self.model.generate_content(prompt).text]: the completion text, or
    the exception of the call or of reading [.text]. *)
Variable generate_content : string -> result string.

(** [json.loads]; [None] when it raises. *)
Variable json_loads : string -> option pyval.

(** The structured dimensions: strict parse, else one [summary] field. *)
Definition structured (d : dimension) (context : string) : result pyval :=
  try_except
    (response_text <- generate_content (prompt d context) ;;
     match json_loads response_text with
     | Some parsed => Ok parsed
     | None => Ok (PDict [("summary", PStr response_text)])
     end)
    (fun _ => Ok PNone).

(** The narrative dimensions: the raw text under a fixed field name. *)
Definition narrative (d : dimension) (field : string) (context : string)
  : result pyval :=
  try_except
    (response_text <- generate_content (prompt d context) ;;
     Ok (PDict [(field, PStr response_text)]))
    (fun _ => Ok PNone).

Definition _analyze_financial : string -> result pyval := structured financial.
Definition _analyze_history : string -> result pyval := narrative history "timeline".
Definition _analyze_industry : string -> result pyval := narrative industry "market_analysis".
Definition _analyze_swot : string -> result pyval := structured swot.
Definition _analyze_predictions : string -> result pyval := narrative predictions "outlook".

(** [analyze]; [now] is the clock reading of the path taken. *)
Definition analyze (now : string) (data : pydict) : result pyval :=
  try_except
    (context <- _prepare_context data ;;
     n <- py_len (Dict.get "sources" (PList []) data) ;;
     let insights :=
       {| timestamp := now;
          query := Dict.get "query" (PStr "Unknown") data;
          sources_analyzed := n;
          analysis := [] |} in
     fin_analysis <- _analyze_financial context ;;
     let insights := store "financial" fin_analysis insights in
     hist_analysis <- _analyze_history context ;;
     let insights := store "history" hist_analysis insights in
     industry_analysis <- _analyze_industry context ;;
     let insights := store "industry" industry_analysis insights in
     swot_analysis <- _analyze_swot context ;;
     let insights := store "swot" swot_analysis insights in
     predictions <- _analyze_predictions context ;;
     let insights := store "predictions" predictions insights in
     Ok (PDict (to_dict insights)))
    (fun e => _error_insights now data (exc_str e)).

(** The method [analyze] calls for a dimension. *)
Definition analyze_dimension (d : dimension) : string -> result pyval :=
  match d with
  | financial => _analyze_financial
  | history => _analyze_history
  | industry => _analyze_industry
  | swot => _analyze_swot
  | predictions => _analyze_predictions
  end.

End Backend.

End Analyzer.

(** ** report_generator.py

    As it stands in the repository the file is not a Python module: its
    last line, the closing triple quote of [_error_report], is followed by
    a closing brace that nothing opens, and loading the file raises
    [SyntaxError: unmatched '}'] before the class exists.
    [import_module] below is that load, and [from_module] is what a
    program that imports the module gets of a method.

    The other definitions embed the methods line by line as they are
    written, that is the text of the file without that one character.
    They say what the class computes once the brace is removed; a
    statement about them is a statement about the methods as written, not
    about a run of the file as shipped. *)

Module Report.

Definition template_version : string := "1.0".

(** [_build_header]; [now] is the default of the missing timestamp. *)
Definition _build_header (now : string) (query : string) (insights : pydict)
  : result string :=
  let timestamp := Dict.get "timestamp" (PStr now) insights in
  let sources := Dict.get "sources_analyzed" (PInt 0) insights in
  Ok ("# Research Report: " ++ query ++ nl ++
      nl ++
      "**Generated:** " ++ py_str timestamp ++ nl ++
      "**Sources Analyzed:** " ++ py_str sources ++ nl ++
      "**Report Version:** " ++ template_version ++ nl ++
      nl ++
      "---" ++ nl ++ nl).

Definition _build_executive_summary (insights : pydict) : result string :=
  let summary := "## Executive Summary" ++ nl ++ nl in
  if Dict.mem "error" insights then
    Ok (summary ++ "*Note: Analysis encountered an issue: "
                ++ py_str (Dict.get "error" PNone insights) ++ "*" ++ nl ++ nl)
  else
    let analysis := Dict.get "analysis" (PDict []) insights in
    let sources := Dict.get "sources_analyzed" (PInt 0) insights in
    Ok (summary
        ++ "This report provides a comprehensive analysis of the subject based on "
        ++ py_str sources ++ " sources. "
        ++ "The analysis includes financial metrics, historical background, industry positioning, "
        ++ "SWOT analysis, and future predictions." ++ nl ++ nl).

(** [for key, value in financial.items(): if key != 'summary': ...] *)
Definition financial_line (section : string) (kv : string * pyval) : string :=
  let (key, value) := kv in
  if negb (String.eqb key "summary") then
    section ++ "**" ++ Str.title (Str.replace "_" " " key) ++ ":** "
            ++ py_str value ++ nl ++ nl
  else section.

Definition _build_financial_section (insights : pydict) : result string :=
  let analysis := Dict.get "analysis" (PDict []) insights in
  financial <- py_get analysis "financial" (PDict []) ;;
  if negb (truthy financial) then Ok ""
  else
    let section := "## Financial Analysis" ++ nl ++ nl in
    match financial with
    | PDict fields => Ok (fold_left financial_line fields section)
    | _ => Ok (section ++ py_str financial ++ nl ++ nl)
    end.

(** The three narrative sections share their shape: heading, then the text
    stored under the dimension's field when it is truthy. *)
Definition narrative_section (k heading field : string) (insights : pydict)
  : result string :=
  let analysis := Dict.get "analysis" (PDict []) insights in
  value <- py_get analysis k (PDict []) ;;
  if negb (truthy value) then Ok ""
  else
    let section := "## " ++ heading ++ nl ++ nl in
    match value with
    | PDict fields =>
        let text := Dict.get field (PStr "") fields in
        if truthy text then Ok (section ++ py_str text ++ nl ++ nl) else Ok section
    | _ => Ok (section ++ py_str value ++ nl ++ nl)
    end.

Definition _build_history_section : pydict -> result string :=
  narrative_section "history" "History & Background" "timeline".

Definition _build_industry_section : pydict -> result string :=
  narrative_section "industry" "Industry & Market Analysis" "market_analysis".

Definition _build_predictions_section : pydict -> result string :=
  narrative_section "predictions" "Future Outlook & Recommendations" "outlook".

Definition swot_categories : list string :=
  ["strengths"; "weaknesses"; "opportunities"; "threats"].

(** One turn of the loop of [_build_swot_section] over the categories. *)
Definition swot_category (fields : pydict) (section : string) (category : string)
  : string :=
  let items := Dict.get category (PList []) fields in
  let section := section ++ "### " ++ Str.capitalize category ++ nl in
  let section :=
    match items with
    | PList l => fold_left (fun section item => section ++ "- " ++ py_str item ++ nl)
                           l section
    | _ => section ++ py_str items ++ nl
    end in
  section ++ nl.

Definition _build_swot_section (insights : pydict) : result string :=
  let analysis := Dict.get "analysis" (PDict []) insights in
  swot <- py_get analysis "swot" (PDict []) ;;
  if negb (truthy swot) then Ok ""
  else
    let section := "## SWOT Analysis" ++ nl ++ nl in
    match swot with
    | PDict fields => Ok (fold_left (swot_category fields) swot_categories section)
    | _ => Ok (section ++ py_str swot ++ nl ++ nl)
    end.

Definition _build_footer : result string :=
  Ok ("---" ++ nl ++
      nl ++
      "*Report generated by AI Data Scientist Agent v" ++ template_version ++ "*" ++ nl ++
      "*Using Google Gemini API for intelligent analysis*" ++ nl ++
      "*For more information, visit: https://github.com/Angelsk2207/ai-data-scientist-agent*" ++ nl).

Definition _error_report (now : string) (query error : string) : result string :=
  Ok ("# Error Report: " ++ query ++ nl ++
      nl ++
      "**Status:** Analysis Failed" ++ nl ++
      "**Error:** " ++ error ++ nl ++
      "**Generated:** " ++ now ++ nl ++
      nl ++
      "The analysis could not be completed due to the error mentioned above." ++ nl ++
      "Please try again or contact support." ++ nl).

(** [generate]; [now] is the clock reading. *)
Definition generate (now : string) (query : string) (insights : pydict)
  : result string :=
  try_except
    (report <- _build_header now query insights ;;
     s <- _build_executive_summary insights ;; let report := report ++ s in
     s <- _build_financial_section insights ;; let report := report ++ s in
     s <- _build_history_section insights ;; let report := report ++ s in
     s <- _build_industry_section insights ;; let report := report ++ s in
     s <- _build_swot_section insights ;; let report := report ++ s in
     s <- _build_predictions_section insights ;; let report := report ++ s in
     s <- _build_footer ;; let report := report ++ s in
     Ok report)
    (fun e => _error_report now query (exc_str e)).

(** The text of line 226 after the closing triple quote. *)
Definition trailing_text : string := "}".

(** The outcome of loading a module. *)
Inductive import (A : Type) : Type :=
| Imported (a : A)
| SyntaxError (msg : string).

Arguments Imported {A} a.
Arguments SyntaxError {A} msg.

Fixpoint unmatched (text : string) : option ascii :=
  match text with
  | EmptyString => None
  | String c text' =>
      if Ascii.eqb c "}" || Ascii.eqb c ")" || Ascii.eqb c "]" then Some c
      else unmatched text'
  end.

(** [import report_generator]: a closing bracket after the last statement
    is refused. *)
Definition import_module : import unit :=
  match unmatched trailing_text with
  | Some c => SyntaxError ("unmatched '" ++ String c "'")
  | None => Imported tt
  end.

(** What a program that imports the module gets when it calls for [x]. *)
Definition from_module {A : Type} (x : A) : import A :=
  match import_module with
  | Imported _ => Imported x
  | SyntaxError msg => SyntaxError msg
  end.

(** The heading that opens the section of a dimension. *)
Definition heading (d : Analyzer.dimension) : string :=
  match d with
  | Analyzer.financial => "## Financial Analysis"
  | Analyzer.history => "## History & Background"
  | Analyzer.industry => "## Industry & Market Analysis"
  | Analyzer.swot => "## SWOT Analysis"
  | Analyzer.predictions => "## Future Outlook & Recommendations"
  end ++ nl ++ nl.

(** The builder [generate] calls for the section of a dimension. *)
Definition build_section (d : Analyzer.dimension) : pydict -> result string :=
  match d with
  | Analyzer.financial => _build_financial_section
  | Analyzer.history => _build_history_section
  | Analyzer.industry => _build_industry_section
  | Analyzer.swot => _build_swot_section
  | Analyzer.predictions => _build_predictions_section
  end.

End Report.

(** ** A decoder for the examples

    [json.loads] belongs to the Python library and is a parameter of the
    analyzer.  The concrete runs below instantiate it with a decoder of the
    JSON texts made of [null], [true], [false], integers, strings with the
    one-character escapes, arrays and objects.  Texts that need more than
    that (a fraction or an exponent, a [\u] escape, [NaN], [Infinity]) are
    outside of what it decodes and it answers [None] on them as on
    malformed texts; no run below uses such a text. *)

Module Json.

Definition is_ws (c : ascii) : bool :=
  let n := nat_of_ascii c in
  (n =? 32)%nat || (n =? 9)%nat || (n =? 10)%nat || (n =? 13)%nat.

Fixpoint skip_ws (s : string) : string :=
  match s with
  | String c s' => if is_ws c then skip_ws s' else s
  | EmptyString => s
  end.

(** [s] without the prefix [lit], when it starts with it *)
Fixpoint expect (lit s : string) : option string :=
  match lit, s with
  | EmptyString, _ => Some s
  | String a lit', String b s' => if Ascii.eqb a b then expect lit' s' else None
  | _, EmptyString => None
  end.

Definition is_digit (c : ascii) : bool :=
  let n := nat_of_ascii c in (48 <=? n)%nat && (n <=? 57)%nat.

Fixpoint digits (acc : Z) (s : string) : Z * string :=
  match s with
  | String c s' =>
      if is_digit c
      then digits (10 * acc + Z.of_nat (nat_of_ascii c - 48)) s'
      else (acc, s)
  | EmptyString => (acc, s)
  end.

(** An integer literal without its sign: [0], or a nonzero digit followed
    by digits; a fraction or an exponent after it is not decoded. *)
Definition natural (s : string) : option (Z * string) :=
  match s with
  | String c s' =>
      if is_digit c then
        let (n, rest) := if Ascii.eqb c "0" then (0%Z, s') else digits 0 s in
        match rest with
        | String "." _ | String "e" _ | String "E" _ => None
        | _ => Some (n, rest)
        end
      else None
  | EmptyString => None
  end.

Definition unescape (c : ascii) : option ascii :=
  match c with
  | "034"%char | "\"%char | "/"%char => Some c
  | "b"%char => Some (ascii_of_nat 8)
  | "f"%char => Some (ascii_of_nat 12)
  | "n"%char => Some (ascii_of_nat 10)
  | "r"%char => Some (ascii_of_nat 13)
  | "t"%char => Some (ascii_of_nat 9)
  | _ => None
  end.

(** The characters of a string literal after its opening quote, up to the
    closing one; a raw control character is refused. *)
Fixpoint chars (s : string) : option (string * string) :=
  match s with
  | EmptyString => None
  | String "034" rest => Some (EmptyString, rest)
  | String "\" (String e s') =>
      match unescape e, chars s' with
      | Some c, Some (body, rest) => Some (String c body, rest)
      | _, _ => None
      end
  | String c s' =>
      if (nat_of_ascii c <? 32)%nat then None
      else match chars s' with
           | Some (body, rest) => Some (String c body, rest)
           | None => None
           end
  end.

Fixpoint value (fuel : nat) (s : string) : option (pyval * string) :=
  match fuel with
  | O => None
  | S fuel' =>
      match skip_ws s with
      | String "n" _ as t => option_map (pair PNone) (expect "null" t)
      | String "t" _ as t => option_map (pair (PBool true)) (expect "true" t)
      | String "f" _ as t => option_map (pair (PBool false)) (expect "false" t)
      | String "034" t =>
          match chars t with
          | Some (body, rest) => Some (PStr body, rest)
          | None => None
          end
      | String "-" t =>
          match natural t with
          | Some (n, rest) => Some (PInt (- n), rest)
          | None => None
          end
      | String "[" t =>
          match skip_ws t with
          | String "]" rest => Some (PList [], rest)
          | t' =>
              match elements fuel' t' with
              | Some (l, rest) => Some (PList l, rest)
              | None => None
              end
          end
      | String "{" t =>
          match skip_ws t with
          | String "}" rest => Some (PDict [], rest)
          | t' =>
              match members fuel' [] t' with
              | Some (d, rest) => Some (PDict d, rest)
              | None => None
              end
          end
      | t =>
          match natural t with
          | Some (n, rest) => Some (PInt n, rest)
          | None => None
          end
      end
  end

with elements (fuel : nat) (s : string) : option (list pyval * string) :=
  match fuel with
  | O => None
  | S fuel' =>
      match value fuel' s with
      | Some (v, rest) =>
          match skip_ws rest with
          | String "]" rest' => Some ([v], rest')
          | String "," rest' =>
              match elements fuel' rest' with
              | Some (l, rest'') => Some (v :: l, rest'')
              | None => None
              end
          | _ => None
          end
      | None => None
      end
  end

(** the members of an object; a repeated name keeps its first position and
    takes the last value *)
with members (fuel : nat) (acc : pydict) (s : string) : option (pydict * string) :=
  match fuel with
  | O => None
  | S fuel' =>
      match skip_ws s with
      | String "034" t =>
          match chars t with
          | Some (name, rest) =>
              match skip_ws rest with
              | String ":" rest' =>
                  match value fuel' rest' with
                  | Some (v, rest'') =>
                      let acc := Dict.set name v acc in
                      match skip_ws rest'' with
                      | String "}" r => Some (acc, r)
                      | String "," r => members fuel' acc r
                      | _ => None
                      end
                  | None => None
                  end
              | _ => None
              end
          | None => None
          end
      | _ => None
      end
  end.

Definition loads (s : string) : option pyval :=
  match value (2 * String.length s + 2) s with
  | Some (v, rest) =>
      match skip_ws rest with
      | EmptyString => Some v
      | _ => None
      end
  | None => None
  end.

End Json.

(** ** The vocabulary of the properties *)

(** [needle in hay] on strings *)
Fixpoint starts_with (prefix s : string) : bool :=
  match prefix, s with
  | EmptyString, _ => true
  | String a prefix', String b s' => Ascii.eqb a b && starts_with prefix' s'
  | _, EmptyString => false
  end.

Fixpoint contains (needle hay : string) : bool :=
  starts_with needle hay ||
  match hay with
  | EmptyString => false
  | String _ hay' => contains needle hay'
  end.

Definition is_ok {A} (r : result A) : bool :=
  match r with Ok _ => true | Raise _ => false end.

(** A source attempt that fails: it returns, and what it returns is falsy
    ([None], or the empty list of the search stub). *)
Definition fails (r : result pyval) : Prop :=
  exists v, r = Ok v /\ truthy v = false.

Module ScraperSpec.
Import Scraper.

Definition occurrences (k : string) (l : list string) : nat :=
  List.length (filter (String.eqb k) l).

Definition names_of (l : list pyval) : list string :=
  flat_map (fun v => match v with PStr s => [s] | _ => [] end) l.

(** The invariant in the words of the specification: every key of
    [raw_content] is listed exactly once in [sources], and every entry of
    [sources] is exactly once a key of [raw_content]. *)
Definition keys_in_sync (data : pydict) : bool :=
  match Dict.lookup "sources" data, Dict.lookup "raw_content" data with
  | Some (PList srcs), Some (PDict raw) =>
      forallb (fun k => (occurrences k (names_of srcs) =? 1)%nat) (Dict.keys raw)
      && forallb (fun v => match v with
                           | PStr s => (occurrences s (Dict.keys raw) =? 1)%nat
                           | _ => false
                           end) srcs
  | _, _ => false
  end.

(** The pairing of display names and keys. *)
Definition paired (name : pyval) (entry : string * pyval) : Prop :=
  exists s, name = PStr s /\ In (s, fst entry) source_names.

(** A scraper all of whose sources fail. *)
Definition all_failing : DataScraper :=
  {| _scrape_wikipedia := fun _ => Ok PNone;
     _scrape_google_search := fun _ => Ok (PList []);
     _scrape_company_info := fun _ => Ok PNone |}.

(** Two HTTP layers for the runs: one that cannot connect, one that serves
    a page with two paragraphs. *)
Definition offline : string -> result page :=
  fun _ => Raise (ConnectionError "Max retries exceeded").

Definition online : string -> result page :=
  fun _ => Ok {| status_code := 200;
                 content_div := Some ["Acme Corp is a company."; "It makes anvils."] |}.

End ScraperSpec.

Module AnalyzerSpec.
Import Analyzer.

(** A well-formed [CollectionResult]: [sources] is a list of strings,
    [raw_content] is a mapping and [query] is a string. *)
Definition is_str (v : pyval) : bool :=
  match v with PStr _ => true | _ => false end.

Definition collection_result (data : pydict) : bool :=
  match Dict.lookup "query" data,
        Dict.lookup "sources" data,
        Dict.lookup "raw_content" data with
  | Some (PStr _), Some (PList srcs), Some (PDict _) => forallb is_str srcs
  | _, _, _ => false
  end.

Definition is_structured (d : dimension) : bool :=
  match d with
  | financial | swot => true
  | _ => false
  end.

Definition field (d : dimension) : string :=
  match d with
  | financial | swot => "summary"
  | history => "timeline"
  | industry => "market_analysis"
  | predictions => "outlook"
  end.

Section Outcome.

Variable generate_content : string -> result string.
Variable json_loads : string -> option pyval.

(** What [analyze] keeps of a dimension, read off the outcome of its
    backend call: nothing when the call fails; for a narrative dimension
    the text under its field; for a structured dimension the parsed value
    when it is truthy, nothing when it is falsy, and the text under
    [summary] when it does not parse. *)
Definition kept (d : dimension) (context : string) : option pyval :=
  match generate_content (prompt d context) with
  | Raise _ => None
  | Ok text =>
      if is_structured d then
        match json_loads text with
        | Some parsed => if truthy parsed then Some parsed else None
        | None => Some (PDict [("summary", PStr text)])
        end
      else Some (PDict [(field d, PStr text)])
  end.

Definition kept_entries (context : string) : pydict :=
  flat_map (fun d => match kept d context with
                     | Some v => [(key d, v)]
                     | None => []
                     end) dimensions.

(** The dimensions whose backend call does not fail. *)
Definition call_succeeds (d : dimension) (context : string) : bool :=
  is_ok (generate_content (prompt d context)).

Definition non_failing (context : string) : list string :=
  map key (filter (fun d => call_succeeds d context) dimensions).

End Outcome.

(** The [analysis] mapping of a returned record. *)
Definition analysis_of (r : result pyval) : option pydict :=
  match r with
  | Ok (PDict insights) =>
      match Dict.lookup "analysis" insights with
      | Some (PDict a) => Some a
      | _ => None
      end
  | _ => None
  end.

(** Backends for the runs. *)
(** JSON texts for the runs; [quoted s] is [s] between double quotes. *)
Definition quoted (s : string) : string :=
  String "034" (s ++ String "034" EmptyString).

Definition revenue_growing : string :=
  "{" ++ quoted "revenue" ++ ": " ++ quoted "growing" ++ "}".

Definition answers (text : string) : string -> result string :=
  fun _ => Ok text.

Definition unreachable : string -> result string :=
  fun _ => Raise (BackendError "503 Service Unavailable").

(** A backend that fails exactly on the prompts of the dimensions in
    [down] and answers [text] on the others. *)
Definition failing_on (down : list dimension) (text : string) (context : string)
  : string -> result string :=
  fun p =>
    if existsb (fun d => String.eqb p (prompt d context)) down
    then Raise (BackendError "quota exceeded")
    else Ok text.

(** The insights record of the path without error. *)
Definition insights_of (now : string) (data : pydict) (n : Z) (a : pydict) : pyval :=
  PDict [("timestamp", PStr now);
         ("query", Dict.get "query" (PStr "Unknown") data);
         ("sources_analyzed", PInt n);
         ("analysis", PDict a)].

Definition acme : pydict :=
  [("query", PStr "Acme Corp");
   ("timestamp", PStr "2024-05-01T10:00:00");
   ("sources", PList [PStr "Google Search"; PStr "Company Database"]);
   ("raw_content", PDict
      [("google", PList [PDict [("title", PStr "Acme Corp - Official Information")]]);
       ("company", PDict [("name", PStr "Acme Corp"); ("industry", PStr "Technology")])])].

(** A record whose [sources] entry is not a list of strings. *)
Definition malformed : pydict :=
  [("query", PStr "Acme Corp"); ("sources", PList [PInt 1]); ("raw_content", PDict [])].

Definition error_insights (now : string) (data : pydict) (error : string) : pyval :=
  PDict [("timestamp", PStr now);
         ("query", Dict.get "query" PNone data);
         ("error", PStr error);
         ("analysis", PDict [("status", PStr "Analysis incomplete");
                             ("message", PStr ("Analysis failed: " ++ error))])].

Definition acme_context : string :=
  match _prepare_context acme with
  | Ok context => context
  | Raise _ => ""
  end.

End AnalyzerSpec.

Module ReportSpec.
Import Report.

(** The text of a part that is built without an exception. *)
Definition text_of (r : result string) : string :=
  match r with
  | Ok s => s
  | Raise _ => ""
  end.

(** A dimension is present when [analysis] has its key with a truthy
    value. *)
Definition present (d : Analyzer.dimension) (analysis : pydict) : bool :=
  match Dict.lookup (Analyzer.key d) analysis with
  | Some v => truthy v
  | None => false
  end.

(** The line of a field of the financial mapping. *)
Definition field_line (kv : string * pyval) : string :=
  "**" ++ Str.title (Str.replace "_" " " (fst kv)) ++ ":** " ++ py_str (snd kv) ++ nl ++ nl.

Definition not_summary (kv : string * pyval) : bool :=
  negb (String.eqb (fst kv) "summary").

(** The lines of a category of the SWOT mapping. *)
Definition item_line (item : pyval) : string := "- " ++ py_str item ++ nl.

Definition category_block (fields : pydict) (category : string) : string :=
  "### " ++ Str.capitalize category ++ nl ++
  match Dict.get category (PList []) fields with
  | PList l => String.concat "" (map item_line l)
  | items => py_str items ++ nl
  end ++ nl.

(** The SWOT section of a mapping without any of the four categories. *)
Definition empty_swot_section : string :=
  "## SWOT Analysis" ++ nl ++ nl ++
  "### Strengths" ++ nl ++ nl ++
  "### Weaknesses" ++ nl ++ nl ++
  "### Opportunities" ++ nl ++ nl ++
  "### Threats" ++ nl ++ nl.

(** [insights] with the swot dimension of its [analysis] replaced *)
Definition with_swot (swot : pyval) (insights analysis : pydict) : pydict :=
  Dict.set "analysis" (PDict (Dict.set "swot" swot analysis)) insights.

Definition summary_only (text : string) : pyval :=
  PDict [("summary", PStr text)].

(** The header of a record without [sources_analyzed]. *)
Definition header_without_sources (query timestamp : string) : string :=
  "# Research Report: " ++ query ++ nl ++
  nl ++
  "**Generated:** " ++ timestamp ++ nl ++
  "**Sources Analyzed:** 0" ++ nl ++
  "**Report Version:** 1.0" ++ nl ++
  nl ++
  "---" ++ nl ++ nl.

(** Records for the runs. *)
Definition financial_fallback : pydict :=
  [("timestamp", PStr "2024-05-01T10:00:05");
   ("query", PStr "Acme Corp");
   ("sources_analyzed", PInt 2);
   ("analysis", PDict [("financial", summary_only "Revenue is growing.")])].

Definition financial_parsed : pydict :=
  [("timestamp", PStr "2024-05-01T10:00:05");
   ("query", PStr "Acme Corp");
   ("sources_analyzed", PInt 2);
   ("analysis", PDict
      [("financial", PDict [("revenue", PStr "growing");
                            ("summary", PStr "overall sound");
                            ("investment_rating", PStr "buy")]);
       ("swot", summary_only "Strong brand, weak margins.")])].

Definition nothing_analyzed : pydict :=
  [("timestamp", PStr "2024-05-01T10:00:05");
   ("query", PStr "Acme Corp");
   ("sources_analyzed", PInt 0);
   ("analysis", PDict [])].

End ReportSpec.

(** ** main.py *)

Module Main.

(** [f"report_{search_query.replace(' ', '_').lower()}.md"] *)
Definition report_filename (search_query : string) : string :=
  "report_" ++ Str.lower (Str.replace " " "_" search_query) ++ ".md".

End Main.

(** ** More vocabulary *)

Module PipelineSpec.

(** The values [', '.join] accepts: a string, a list of strings, a
    mapping. *)
Definition joinable (v : pyval) : bool :=
  match v with
  | PStr _ | PDict _ => true
  | PList l => forallb AnalyzerSpec.is_str l
  | _ => false
  end.

Fixpoint all_chars (p : ascii -> bool) (s : string) : bool :=
  match s with
  | EmptyString => true
  | String c s' => p c && all_chars p s'
  end.

(** The paragraph of the executive summary of a record without error. *)
Definition overview (sources : string) : string :=
  "## Executive Summary" ++ nl ++ nl ++
  "This report provides a comprehensive analysis of the subject based on "
  ++ sources ++ " sources. "
  ++ "The analysis includes financial metrics, historical background, industry positioning, "
  ++ "SWOT analysis, and future predictions." ++ nl ++ nl.

(** The header of a report. *)
Definition header (query timestamp sources : string) : string :=
  "# Research Report: " ++ query ++ nl ++
  nl ++
  "**Generated:** " ++ timestamp ++ nl ++
  "**Sources Analyzed:** " ++ sources ++ nl ++
  "**Report Version:** 1.0" ++ nl ++
  nl ++
  "---" ++ nl ++ nl.

(** The context of a record without [query], [sources] and
    [raw_content]. *)
Definition bare_context : string :=
  "Analyze the following information:" ++ nl ++ nl ++
  "Query: Unknown" ++ nl ++
  "Sources: " ++ nl ++ nl.

(** The content [_scrape_wikipedia] returns for a page. *)
Definition wikipedia_entry (q : string) (paragraphs : list string) : pyval :=
  PDict [("title", PStr q); ("content", PStr (Str.join " " (firstn 5 paragraphs)))].

Definition wikipedia_url (q : string) : string :=
  "https://en.wikipedia.org/wiki/" ++ Str.replace " " "_" q.

(** The page that makes [_scrape_wikipedia] succeed. *)
Definition found (r : result Scraper.page) : option (list string) :=
  match r with
  | Ok response =>
      if (Scraper.status_code response =? 200)%Z
      then Scraper.content_div response else None
  | Raise _ => None
  end.

(** The two sources the stubs of the class always give. *)
Definition google_entry (q : string) : pyval :=
  PList
    [Scraper.search_result (q ++ " - Official Information")
       ("https://example.com/search?q=" ++ q)
       ("Information about " ++ q ++ " from official sources.");
     Scraper.search_result (q ++ " - LinkedIn Profile")
       ("https://linkedin.com/in/" ++ Str.replace " " "" (Str.lower q))
       ("Professional details about " ++ q ++ ".");
     Scraper.search_result (q ++ " - Recent News")
       ("https://news.google.com/search?q=" ++ q)
       ("Latest news and updates about " ++ q ++ ".")].

Definition company_entry (q : string) : pyval :=
  PDict [("name", PStr q); ("founded", PStr "Unknown");
         ("industry", PStr "Technology"); ("employees", PStr "Unknown");
         ("revenue", PStr "Unknown");
         ("description", PStr ("Company information for " ++ q))].

Definition is_ascii (c : ascii) : bool := (nat_of_ascii c <? 128)%nat.

(** The note of the executive summary of a record with [error]. *)
Definition note (error : string) : string :=
  "## Executive Summary" ++ nl ++ nl ++
  "*Note: Analysis encountered an issue: " ++ error ++ "*" ++ nl ++ nl.

(** The executive summary of a record: it reads [error] and
    [sources_analyzed] and nothing else. *)
Definition summary_text (insights : pydict) : string :=
  if Dict.mem "error" insights
  then note (py_str (Dict.get "error" PNone insights))
  else overview (py_str (Dict.get "sources_analyzed" (PInt 0) insights)).

Definition footer_text : string :=
  "---" ++ nl ++
  nl ++
  "*Report generated by AI Data Scientist Agent v1.0*" ++ nl ++
  "*Using Google Gemini API for intelligent analysis*" ++ nl ++
  "*For more information, visit: https://github.com/Angelsk2207/ai-data-scientist-agent*" ++ nl.

Definition error_report_text (query error now : string) : string :=
  "# Error Report: " ++ query ++ nl ++
  nl ++
  "**Status:** Analysis Failed" ++ nl ++
  "**Error:** " ++ error ++ nl ++
  "**Generated:** " ++ now ++ nl ++
  nl ++
  "The analysis could not be completed due to the error mentioned above." ++ nl ++
  "Please try again or contact support." ++ nl.

(** A record for the runs, with the five dimensions analyzed. *)
Definition everything_analyzed : pydict :=
  [("timestamp", PStr "2024-05-01T10:00:05");
   ("query", PStr "Acme Corp");
   ("sources_analyzed", PInt 0);
   ("analysis", PDict
      [("financial", PDict [("revenue", PStr "growing")]);
       ("history", PDict [("timeline", PStr "Founded in 1950.")]);
       ("industry", PDict [("market_analysis", PStr "A crowded market.")]);
       ("swot", PDict [("strengths", PList [PStr "brand"])]);
       ("predictions", PDict [("outlook", PStr "Steady growth.")])])].

End PipelineSpec.

(** * Properties *)

(** ** The collector *)

Module ScraperFacts.
Import Scraper ScraperSpec.

Example scrape_offline :
  scrape (Default offline) "2024-05-01T10:00:00" "Acme Corp"
  = Ok (PDict
      [("query", PStr "Acme Corp");
       ("timestamp", PStr "2024-05-01T10:00:00");
       ("sources", PList [PStr "Google Search"; PStr "Company Database"]);
       ("raw_content", PDict
          [("google", PList
              [search_result "Acme Corp - Official Information"
                             "https://example.com/search?q=Acme Corp"
                             "Information about Acme Corp from official sources.";
               search_result "Acme Corp - LinkedIn Profile"
                             "https://linkedin.com/in/acmecorp"
                             "Professional details about Acme Corp.";
               search_result "Acme Corp - Recent News"
                             "https://news.google.com/search?q=Acme Corp"
                             "Latest news and updates about Acme Corp."]);
           ("company", PDict
              [("name", PStr "Acme Corp");
               ("founded", PStr "Unknown");
               ("industry", PStr "Technology");
               ("employees", PStr "Unknown");
               ("revenue", PStr "Unknown");
               ("description", PStr "Company information for Acme Corp")])])]).
Proof. reflexivity. Qed.

(** The source methods of the class never raise. *)
Lemma wikipedia_returns requests_get q :
  exists v, wikipedia requests_get q = Ok v.
Proof.
  unfold wikipedia.
  destruct (requests_get _) as [response | e]; cbn; [| eexists; reflexivity].
  destruct (status_code response =? 200)%Z; [| eexists; reflexivity].
  destruct (content_div response); eexists; reflexivity.
Qed.

Lemma scrape_default_unfold requests_get now q w :
  wikipedia requests_get q = Ok w ->
  scrape (Default requests_get) now q
  = Ok (PDict (to_dict
      (add_source "Company Database" "company"
         (PDict [("name", PStr q); ("founded", PStr "Unknown");
                 ("industry", PStr "Technology"); ("employees", PStr "Unknown");
                 ("revenue", PStr "Unknown");
                 ("description", PStr ("Company information for " ++ q))])
         (add_source "Google Search" "google"
            (PList
               [search_result (q ++ " - Official Information")
                  ("https://example.com/search?q=" ++ q)
                  ("Information about " ++ q ++ " from official sources.");
                search_result (q ++ " - LinkedIn Profile")
                  ("https://linkedin.com/in/" ++ Str.replace " " "" (Str.lower q))
                  ("Professional details about " ++ q ++ ".");
                search_result (q ++ " - Recent News")
                  ("https://news.google.com/search?q=" ++ q)
                  ("Latest news and updates about " ++ q ++ ".")])
            (if truthy w
             then add_source "Wikipedia" "wikipedia" w
                    {| query := q; timestamp := now; sources := []; raw_content := [] |}
             else {| query := q; timestamp := now; sources := []; raw_content := [] |}))))).
Proof.
  intros Hw. unfold scrape. cbn [Default _scrape_wikipedia _scrape_google_search
    _scrape_company_info]. rewrite Hw. reflexivity.
Qed.

(** The stubs of the class return their entries, whatever the query. *)
Lemma stubs_return q :
  exists g c,
    google_search q = Ok g /\ truthy g = true
    /\ company_info q = Ok c /\ truthy c = true.
Proof. eexists. eexists. repeat split. Qed.

(** C7. For every query, the three source methods of the class return
    without raising, whatever the HTTP layer does, and [scrape] returns a
    valid [CollectionResult].  Each attempt stands alone: for any source
    methods that return, the result lists exactly the sources whose
    attempt gave a truthy value, in the order Wikipedia, Google Search,
    Company Database, each with its content, whatever the other attempts
    gave; so a source that fails takes no other source with it, and when
    every source fails the result is the valid record with an empty
    [sources] list and an empty [raw_content] mapping. *)
Theorem scrape_is_best_effort
  (self : DataScraper) (requests_get : string -> result page) (now q : string) :
  (exists w g c data,
      _scrape_wikipedia (Default requests_get) q = Ok w
      /\ _scrape_google_search (Default requests_get) q = Ok g
      /\ _scrape_company_info (Default requests_get) q = Ok c
      /\ truthy g = true
      /\ truthy c = true
      /\ scrape (Default requests_get) now q = Ok (PDict data)
      /\ validate_data data = true)
  /\ (forall w g c,
        _scrape_wikipedia self q = Ok w ->
        _scrape_google_search self q = Ok g ->
        _scrape_company_info self q = Ok c ->
        let data :=
          [("query", PStr q);
           ("timestamp", PStr now);
           ("sources", PList
              ((if truthy w then [PStr "Wikipedia"] else [])
               ++ (if truthy g then [PStr "Google Search"] else [])
               ++ (if truthy c then [PStr "Company Database"] else [])));
           ("raw_content", PDict
              ((if truthy w then [("wikipedia", w)] else [])
               ++ (if truthy g then [("google", g)] else [])
               ++ (if truthy c then [("company", c)] else [])))] in
        scrape self now q = Ok (PDict data)
        /\ validate_data data = true
        /\ (truthy w = false -> truthy g = false -> truthy c = false ->
            scrape self now q
            = Ok (PDict [("query", PStr q); ("timestamp", PStr now);
                         ("sources", PList []); ("raw_content", PDict [])]))).
Proof.
  assert (B : forall (self' : DataScraper) w g c,
             _scrape_wikipedia self' q = Ok w ->
             _scrape_google_search self' q = Ok g ->
             _scrape_company_info self' q = Ok c ->
             scrape self' now q
             = Ok (PDict
                 [("query", PStr q);
                  ("timestamp", PStr now);
                  ("sources", PList
                     ((if truthy w then [PStr "Wikipedia"] else [])
                      ++ (if truthy g then [PStr "Google Search"] else [])
                      ++ (if truthy c then [PStr "Company Database"] else [])));
                  ("raw_content", PDict
                     ((if truthy w then [("wikipedia", w)] else [])
                      ++ (if truthy g then [("google", g)] else [])
                      ++ (if truthy c then [("company", c)] else [])))])).
  { intros self' w g c Hw Hg Hc. unfold scrape. rewrite Hw, Hg, Hc. cbn [bind].
    destruct (truthy w), (truthy g), (truthy c); reflexivity. }
  split.
  - destruct (wikipedia_returns requests_get q) as [w Hw].
    destruct (stubs_return q) as [g [c [Hg [Tg [Hc Tc]]]]].
    exists w, g, c. eexists.
    split; [exact Hw |]. split; [exact Hg |]. split; [exact Hc |].
    split; [exact Tg |]. split; [exact Tc |].
    split; [apply (B (Default requests_get) w g c Hw Hg Hc) | reflexivity].
  - intros w g c Hw Hg Hc. cbn zeta.
    split; [apply (B self w g c Hw Hg Hc) |].
    split; [reflexivity |].
    intros Fw Fg Fc. rewrite (B self w g c Hw Hg Hc), Fw, Fg, Fc. reflexivity.
Qed.

(** Wikipedia cannot be reached: the two other sources are listed.  And
    with every source failing the record is empty. *)
Lemma scrape_is_best_effort_witness :
  scrape (Default offline) "2024-05-01T10:00:00" "Acme Corp"
  = Ok (PDict
      [("query", PStr "Acme Corp");
       ("timestamp", PStr "2024-05-01T10:00:00");
       ("sources", PList [PStr "Google Search"; PStr "Company Database"]);
       ("raw_content", PDict
          [("google", PipelineSpec.google_entry "Acme Corp");
           ("company", PipelineSpec.company_entry "Acme Corp")])])
  /\ scrape all_failing "2024-05-01T10:00:00" "Acme Corp"
     = Ok (PDict [("query", PStr "Acme Corp"); ("timestamp", PStr "2024-05-01T10:00:00");
                  ("sources", PList []); ("raw_content", PDict [])]).
Proof.
  split.
  - apply (proj1 (proj2 (scrape_is_best_effort (Default offline) offline
                           "2024-05-01T10:00:00" "Acme Corp")
                    PNone (PipelineSpec.google_entry "Acme Corp")
                    (PipelineSpec.company_entry "Acme Corp")
                    eq_refl eq_refl eq_refl)).
  - apply (proj2 (proj2 (proj2 (scrape_is_best_effort all_failing offline
                                  "2024-05-01T10:00:00" "Acme Corp")
                           PNone (PList []) PNone eq_refl eq_refl eq_refl)));
      reflexivity.
Defined.

(** The invariant as the specification words it fails on every run of the
    class: [raw_content] is keyed by [google] and [company], [sources]
    lists [Google Search] and [Company Database]. *)
Lemma keys_in_sync_counterexample :
  exists data,
    scrape (Default offline) "2024-05-01T10:00:00" "Acme Corp" = Ok (PDict data)
    /\ Dict.lookup "sources" data
       = Some (PList [PStr "Google Search"; PStr "Company Database"])
    /\ option_map (fun v => match v with PDict raw => Dict.keys raw | _ => [] end)
         (Dict.lookup "raw_content" data) = Some ["google"; "company"]
    /\ keys_in_sync data = false.
Proof. eexists. repeat split. Qed.

(** C2 (as the code has it). Whatever the three source methods return,
    the record [scrape] returns has as many [sources] as [raw_content]
    entries, in the same order: the i-th source is the display name
    (Wikipedia, Google Search, Company Database) of the i-th key
    (wikipedia, google, company), and no name and no key is repeated. *)
Theorem scrape_sources_paired_with_raw_content
  (self : DataScraper) (now q : string) (r : pyval) :
  scrape self now q = Ok r ->
  exists srcs raw,
    r = PDict [("query", PStr q); ("timestamp", PStr now);
               ("sources", PList srcs); ("raw_content", PDict raw)]
    /\ Forall2 paired srcs raw
    /\ NoDup srcs
    /\ NoDup (Dict.keys raw).
Proof.
  unfold scrape.
  destruct (_scrape_wikipedia self q) as [w | e]; [| discriminate].
  destruct (_scrape_google_search self q) as [g | e]; [| discriminate].
  destruct (_scrape_company_info self q) as [c | e]; [| discriminate].
  cbn [bind]. intros H. injection H as <-.
  assert (P1 : paired (PStr "Wikipedia") ("wikipedia", w))
    by (eexists; split; [reflexivity | cbn; auto]).
  assert (P2 : paired (PStr "Google Search") ("google", g))
    by (eexists; split; [reflexivity | cbn; auto]).
  assert (P3 : paired (PStr "Company Database") ("company", c))
    by (eexists; split; [reflexivity | cbn; auto 6]).
  destruct (truthy w), (truthy g), (truthy c); cbn;
    eexists; eexists; (split; [reflexivity |]);
    (split; [repeat constructor; assumption |]);
    split; repeat constructor; cbn; intuition discriminate.
Qed.

Lemma scrape_sources_paired_with_raw_content_witness :
  exists srcs raw,
    PDict [("query", PStr "Acme Corp"); ("timestamp", PStr "2024-05-01T10:00:00");
           ("sources", PList [PStr "Wikipedia"; PStr "Google Search"; PStr "Company Database"]);
           ("raw_content", PDict
              [("wikipedia", PDict [("title", PStr "Acme Corp");
                                    ("content", PStr "Acme Corp is a company. It makes anvils.")]);
               ("google", PList
                  [search_result "Acme Corp - Official Information"
                     "https://example.com/search?q=Acme Corp"
                     "Information about Acme Corp from official sources.";
                   search_result "Acme Corp - LinkedIn Profile"
                     "https://linkedin.com/in/acmecorp"
                     "Professional details about Acme Corp.";
                   search_result "Acme Corp - Recent News"
                     "https://news.google.com/search?q=Acme Corp"
                     "Latest news and updates about Acme Corp."]);
               ("company", PDict
                  [("name", PStr "Acme Corp"); ("founded", PStr "Unknown");
                   ("industry", PStr "Technology"); ("employees", PStr "Unknown");
                   ("revenue", PStr "Unknown");
                   ("description", PStr "Company information for Acme Corp")])])]
    = PDict [("query", PStr "Acme Corp"); ("timestamp", PStr "2024-05-01T10:00:00");
             ("sources", PList srcs); ("raw_content", PDict raw)]
    /\ Forall2 paired srcs raw
    /\ NoDup srcs
    /\ NoDup (Dict.keys raw).
Proof.
  apply (scrape_sources_paired_with_raw_content
           (Default online) "2024-05-01T10:00:00" "Acme Corp").
  reflexivity.
Defined.

End ScraperFacts.

(** ** The insight synthesizer *)

Module AnalyzerFacts.
Import Analyzer AnalyzerSpec.

Lemma join_items_strings l : forall i,
  forallb is_str l = true -> exists items, join_items i l = Ok items.
Proof.
  induction l as [| v l IH]; intros i H; cbn.
  - eexists; reflexivity.
  - cbn in H. apply andb_prop in H as [Hv Hl].
    destruct v; try discriminate.
    destruct (IH (S i) Hl) as [items ->]. eexists; reflexivity.
Qed.

(** The context of a well-formed [CollectionResult] is built without an
    exception. *)
Lemma prepare_context_collection_result data :
  collection_result data = true ->
  exists context srcs,
    _prepare_context data = Ok context
    /\ Dict.lookup "sources" data = Some (PList srcs).
Proof.
  unfold collection_result, _prepare_context, Dict.get.
  destruct (Dict.lookup "query" data) as [[]|]; try discriminate.
  destruct (Dict.lookup "sources" data) as [[]|]; try discriminate.
  destruct (Dict.lookup "raw_content" data) as [[]|]; try discriminate.
  intros H. destruct (join_items_strings _ 0 H) as [items Hi].
  cbn. rewrite Hi. cbn. eexists; eexists; split; reflexivity.
Qed.

(** Once the context is built, [len] of the sources does not raise. *)
Lemma prepare_context_len data context :
  _prepare_context data = Ok context ->
  exists n, py_len (Dict.get "sources" (PList []) data) = Ok n.
Proof.
  unfold _prepare_context.
  destruct (Dict.get "sources" (PList []) data); cbn;
    try discriminate; intros _; eexists; reflexivity.
Qed.

Section Backend.

Variable generate_content : string -> result string.
Variable json_loads : string -> option pyval.

Local Abbreviation kept := (kept generate_content json_loads).
Local Abbreviation kept_entries := (kept_entries generate_content json_loads).
Local Abbreviation analyze := (analyze generate_content json_loads).

(** A dimension method never raises, and what [analyze] stores of its
    result is [kept]. *)
Lemma analyze_dimension_kept d context :
  exists v,
    analyze_dimension generate_content json_loads d context = Ok v
    /\ (if truthy v then Some v else None) = kept d context.
Proof.
  unfold kept.
  destruct d;
    unfold analyze_dimension, _analyze_financial, _analyze_history,
      _analyze_industry, _analyze_swot, _analyze_predictions, structured, narrative;
    cbn [is_structured field];
    destruct (generate_content _) as [text | e]; cbn [bind try_except];
    try (eexists; split; reflexivity).
  all: destruct (json_loads text) as [parsed |]; eexists; split; reflexivity.
Qed.

(** The path without error: the record [analyze] returns. *)
Lemma analyze_ok now data context n :
  _prepare_context data = Ok context ->
  py_len (Dict.get "sources" (PList []) data) = Ok n ->
  analyze now data = Ok (insights_of now data n (kept_entries context)).
Proof.
  intros Hc Hn. unfold analyze. rewrite Hc. cbn [bind]. rewrite Hn. cbn [bind].
  unfold kept_entries, dimensions. cbn [flat_map].
  destruct (analyze_dimension_kept financial context) as [v1 [E1 <-]].
  destruct (analyze_dimension_kept history context) as [v2 [E2 <-]].
  destruct (analyze_dimension_kept industry context) as [v3 [E3 <-]].
  destruct (analyze_dimension_kept swot context) as [v4 [E4 <-]].
  destruct (analyze_dimension_kept predictions context) as [v5 [E5 <-]].
  cbn in E1, E2, E3, E4, E5. rewrite E1, E2, E3, E4, E5. cbn [bind try_except].
  unfold store.
  destruct (truthy v1), (truthy v2), (truthy v3), (truthy v4), (truthy v5);
    reflexivity.
Qed.

Lemma lookup_kept_entries d context :
  Dict.lookup (key d) (kept_entries context) = kept d context.
Proof.
  unfold kept_entries, dimensions. cbn [flat_map].
  destruct (kept financial context) eqn:K1, (kept history context) eqn:K2,
    (kept industry context) eqn:K3, (kept swot context) eqn:K4,
    (kept predictions context) eqn:K5;
    destruct d; cbn; congruence.
Qed.

Lemma kept_entries_truthy context k v :
  In (k, v) (kept_entries context) -> truthy v = true.
Proof.
  unfold kept_entries. rewrite in_flat_map. intros [d [_ H]].
  destruct (kept d context) as [v' |] eqn:K; cbn in H; [| contradiction].
  destruct H as [H | []]. injection H as _ <-.
  destruct (analyze_dimension_kept d context) as [w [_ Hw]].
  rewrite K in Hw. destruct (truthy w) eqn:T; congruence.
Qed.

Lemma kept_none d context :
  kept d context = None <->
  (exists e, generate_content (prompt d context) = Raise e)
  \/ (is_structured d = true
      /\ exists text parsed,
           generate_content (prompt d context) = Ok text
           /\ json_loads text = Some parsed /\ truthy parsed = false).
Proof.
  unfold kept. split.
  - destruct (generate_content _) as [text | e]; [| eauto].
    destruct (is_structured d); [| discriminate].
    destruct (json_loads text) as [parsed |] eqn:J; [| discriminate].
    destruct (truthy parsed) eqn:T; [discriminate |].
    intros _. right. split; [reflexivity |]. eauto.
  - intros [[e ->] | [-> [text [parsed [-> [-> ->]]]]]]; reflexivity.
Qed.

(** The catastrophic path: the context cannot be built. *)
Lemma analyze_error now data e :
  _prepare_context data = Raise e ->
  analyze now data = _error_insights now data (exc_str e).
Proof. intros He. unfold Analyzer.analyze. rewrite He. reflexivity. Qed.

(** The record on the path without error carries its [analysis]. *)
Lemma analysis_of_analyze now data context :
  _prepare_context data = Ok context ->
  analysis_of (analyze now data) = Some (kept_entries context).
Proof.
  intros Hc. destruct (prepare_context_len _ _ Hc) as [n Hn].
  rewrite (analyze_ok now data context n Hc Hn). reflexivity.
Qed.

Lemma kept_or_call_fails d context :
  (forall text parsed,
      is_structured d = true ->
      generate_content (prompt d context) = Ok text ->
      json_loads text = Some parsed -> truthy parsed = true) ->
  (call_succeeds generate_content d context = true /\ exists v, kept d context = Some v)
  \/ (call_succeeds generate_content d context = false /\ kept d context = None).
Proof.
  intros H. unfold call_succeeds, AnalyzerSpec.kept.
  destruct (generate_content _) as [text | e]; cbn; [left; split; [reflexivity |] | now right].
  destruct (is_structured d) eqn:S; [| eexists; reflexivity].
  destruct (json_loads text) as [parsed |] eqn:J; [| eexists; reflexivity].
  rewrite (H text parsed eq_refl eq_refl J). eexists; reflexivity.
Qed.

End Backend.

(** C1 (as the code has it). For a well-formed [CollectionResult] and any
    backend, [analyze] returns the record whose [sources_analyzed] is the
    length of the input's [sources] and whose [analysis] holds, in the
    order of the dimensions, exactly the dimensions that are [kept]: every
    dimension is attempted whatever happened to the others, a dimension
    whose call fails is absent, and so is a structured dimension whose
    response parses to a falsy value.  When no structured response parses
    to a falsy value, the keys of [analysis] are exactly the dimensions
    whose backend call did not fail. *)
Theorem analyze_keeps_the_usable_dimensions
  (generate_content : string -> result string)
  (json_loads : string -> option pyval) (now : string) (data : pydict) :
  collection_result data = true ->
  exists context srcs,
    _prepare_context data = Ok context
    /\ Dict.lookup "sources" data = Some (PList srcs)
    /\ analyze generate_content json_loads now data
       = Ok (insights_of now data (Z.of_nat (List.length srcs))
               (kept_entries generate_content json_loads context))
    /\ (forall d,
          Dict.lookup (key d) (kept_entries generate_content json_loads context)
          = kept generate_content json_loads d context)
    /\ ((forall d text parsed,
            is_structured d = true ->
            generate_content (prompt d context) = Ok text ->
            json_loads text = Some parsed -> truthy parsed = true) ->
        Dict.keys (kept_entries generate_content json_loads context)
        = non_failing generate_content context).
Proof.
  intros W. destruct (prepare_context_collection_result data W) as [context [srcs [Hc Hs]]].
  exists context, srcs. repeat split; try assumption.
  - apply analyze_ok; [assumption |].
    unfold Dict.get. rewrite Hs. reflexivity.
  - intros d. apply lookup_kept_entries.
  - intros H. unfold kept_entries, non_failing, dimensions. cbn [flat_map filter].
    destruct (kept_or_call_fails generate_content json_loads financial context
                (H financial)) as [[-> [v1 ->]] | [-> ->]];
    destruct (kept_or_call_fails generate_content json_loads history context
                (H history)) as [[-> [v2 ->]] | [-> ->]];
    destruct (kept_or_call_fails generate_content json_loads industry context
                (H industry)) as [[-> [v3 ->]] | [-> ->]];
    destruct (kept_or_call_fails generate_content json_loads swot context
                (H swot)) as [[-> [v4 ->]] | [-> ->]];
    destruct (kept_or_call_fails generate_content json_loads predictions context
                (H predictions)) as [[-> [v5 ->]] | [-> ->]];
    reflexivity.
Qed.

(** A run with the history and swot calls failing. *)
Lemma analyze_keeps_the_usable_dimensions_witness :
  exists a,
    analysis_of
      (analyze (failing_on [history; swot] revenue_growing acme_context)
         Json.loads "2024-05-01T10:00:05" acme) = Some a
    /\ Dict.keys a = ["financial"; "industry"; "predictions"]
    /\ Dict.keys a
       = non_failing (failing_on [history; swot] revenue_growing acme_context)
           acme_context.
Proof.
  destruct (analyze_keeps_the_usable_dimensions
              (failing_on [history; swot] revenue_growing acme_context)
              Json.loads "2024-05-01T10:00:05" acme eq_refl)
    as [context [srcs [Hc [Hs [Ha _]]]]].
  rewrite Ha. eexists. split; [reflexivity |].
  assert (context = acme_context) as -> by (vm_compute in Hc; now injection Hc as <-).
  split; vm_compute; reflexivity.
Defined.

(** Every backend call succeeds and answers the JSON text of the empty
    object: no call fails, and the two structured dimensions are absent. *)
Lemma analysis_misses_non_failing_dimensions :
  exists a,
    analysis_of (analyze (answers "{}") Json.loads "2024-05-01T10:00:05" acme) = Some a
    /\ Dict.keys a = ["history"; "industry"; "predictions"]
    /\ non_failing (answers "{}") acme_context
       = ["financial"; "history"; "industry"; "swot"; "predictions"]
    /\ Json.loads "{}" = Some (PDict [])
    /\ Dict.keys a <> non_failing (answers "{}") acme_context.
Proof.
  eexists. split; [vm_compute; reflexivity |].
  repeat split; try (vm_compute; reflexivity). vm_compute. discriminate.
Qed.

(** C4 (as the code has it). On the path without error, for a structured
    dimension (financial or swot): when its backend call succeeds with a
    text that does not parse, [analysis] stores the one-field mapping of
    [summary] to that text; and the dimension is absent exactly when its
    call fails or its response parses to a falsy value. *)
Theorem structured_dimension_falls_back_to_summary
  (generate_content : string -> result string)
  (json_loads : string -> option pyval) (now : string) (data : pydict)
  (context : string) (d : dimension) :
  _prepare_context data = Ok context ->
  is_structured d = true ->
  exists a,
    analysis_of (analyze generate_content json_loads now data) = Some a
    /\ (forall text,
          generate_content (prompt d context) = Ok text ->
          json_loads text = None ->
          Dict.lookup (key d) a = Some (PDict [("summary", PStr text)]))
    /\ (Dict.lookup (key d) a = None <->
        (exists e, generate_content (prompt d context) = Raise e)
        \/ (exists text parsed,
              generate_content (prompt d context) = Ok text
              /\ json_loads text = Some parsed /\ truthy parsed = false)).
Proof.
  intros Hc S. eexists. split; [apply analysis_of_analyze; eassumption |].
  rewrite lookup_kept_entries. split.
  - intros text Hg Hj. unfold kept. now rewrite Hg, S, Hj.
  - rewrite kept_none. rewrite S. intuition.
Qed.

Lemma structured_dimension_falls_back_to_summary_witness :
  exists a,
    analysis_of (analyze (answers "Revenue is growing.") Json.loads
                   "2024-05-01T10:00:05" acme) = Some a
    /\ Dict.lookup "swot" a = Some (PDict [("summary", PStr "Revenue is growing.")]).
Proof.
  destruct (structured_dimension_falls_back_to_summary
              (answers "Revenue is growing.") Json.loads "2024-05-01T10:00:05" acme
              acme_context swot eq_refl eq_refl) as [a [Ha [Hs _]]].
  exists a. split; [exact Ha |]. apply Hs; reflexivity.
Defined.

(** The swot call succeeds and answers the JSON text of the empty object:
    the dimension is omitted although no call failed. *)
Lemma omission_without_call_failure :
  exists a,
    analysis_of (analyze (answers "{}") Json.loads "2024-05-01T10:00:05" acme) = Some a
    /\ call_succeeds (answers "{}") swot acme_context = true
    /\ Json.loads "{}" = Some (PDict [])
    /\ Dict.lookup "swot" a = None.
Proof. eexists. split; [vm_compute; reflexivity |]. repeat split. Qed.

(** C6. [analyze] never raises.  When the construction of the context
    raises, it returns the minimal record: the timestamp, the query, the
    message of the exception under [error], and an [analysis] made of the
    status note.  When the context is built, the record has no [error]
    key, whatever the backend does. *)
Theorem analyze_never_raises
  (generate_content : string -> result string)
  (json_loads : string -> option pyval) (now : string) (data : pydict) :
  (exists insights, analyze generate_content json_loads now data = Ok (PDict insights))
  /\ (forall e,
        _prepare_context data = Raise e ->
        analyze generate_content json_loads now data
        = Ok (error_insights now data (exc_str e)))
  /\ (forall context,
        _prepare_context data = Ok context ->
        exists insights,
          analyze generate_content json_loads now data = Ok (PDict insights)
          /\ Dict.mem "error" insights = false).
Proof.
  assert (E : forall e, _prepare_context data = Raise e ->
                analyze generate_content json_loads now data
                = Ok (error_insights now data (exc_str e))).
  { intros e He. now rewrite (analyze_error _ _ now data e He). }
  assert (O : forall context, _prepare_context data = Ok context ->
                exists insights,
                  analyze generate_content json_loads now data = Ok (PDict insights)
                  /\ Dict.mem "error" insights = false).
  { intros context Hc. destruct (prepare_context_len _ _ Hc) as [n Hn].
    rewrite (analyze_ok _ _ now data context n Hc Hn).
    eexists. split; reflexivity. }
  split; [| split; assumption].
  destruct (_prepare_context data) as [context | e] eqn:P.
  - destruct (O context eq_refl) as [insights [H _]]. eauto.
  - rewrite (E e eq_refl). eexists; reflexivity.
Qed.

Lemma analyze_never_raises_witness :
  analyze unreachable Json.loads "2024-05-01T10:00:05" malformed
  = Ok (PDict
      [("timestamp", PStr "2024-05-01T10:00:05");
       ("query", PStr "Acme Corp");
       ("error", PStr "sequence item 0: expected str instance, int found");
       ("analysis", PDict
          [("status", PStr "Analysis incomplete");
           ("message",
            PStr "Analysis failed: sequence item 0: expected str instance, int found")])]).
Proof.
  apply (proj1 (proj2 (analyze_never_raises unreachable Json.loads
                         "2024-05-01T10:00:05" malformed))
           (TypeError "sequence item 0: expected str instance, int found")).
  reflexivity.
Defined.

(** C8 (as the code has it). On the path without error, a structured
    dimension whose response parses to a falsy value is absent from
    [analysis], as is a dimension whose call fails; and every value stored
    in [analysis] is truthy. *)
Theorem stored_values_are_truthy
  (generate_content : string -> result string)
  (json_loads : string -> option pyval) (now : string) (data : pydict)
  (context : string) :
  _prepare_context data = Ok context ->
  exists a,
    analysis_of (analyze generate_content json_loads now data) = Some a
    /\ (forall d text parsed,
          is_structured d = true ->
          generate_content (prompt d context) = Ok text ->
          json_loads text = Some parsed ->
          truthy parsed = false ->
          Dict.lookup (key d) a = None)
    /\ (forall d e,
          generate_content (prompt d context) = Raise e ->
          Dict.lookup (key d) a = None)
    /\ (forall k v, In (k, v) a -> truthy v = true).
Proof.
  intros Hc. eexists. split; [apply analysis_of_analyze; eassumption |].
  split; [| split].
  - intros d text parsed S Hg Hj Ht. rewrite lookup_kept_entries.
    apply kept_none. right. split; [assumption |]. eauto.
  - intros d e Hg. rewrite lookup_kept_entries. apply kept_none. left. eauto.
  - intros k v. apply kept_entries_truthy.
Qed.

Lemma stored_values_are_truthy_witness :
  exists a,
    analysis_of (analyze (answers "{}") Json.loads "2024-05-01T10:00:05" acme) = Some a
    /\ Dict.lookup "financial" a = None
    /\ (forall k v, In (k, v) a -> truthy v = true).
Proof.
  destruct (stored_values_are_truthy (answers "{}") Json.loads "2024-05-01T10:00:05"
              acme acme_context eq_refl) as [a [Ha [Hf [_ Ht]]]].
  exists a. split; [exact Ha |]. split; [| exact Ht].
  apply (Hf financial "{}" (PDict [])); reflexivity.
Defined.

(** The financial call answers the JSON text of a one-element array: the
    value stored for the dimension is a list, not a mapping. *)
Lemma stored_value_not_a_mapping :
  exists a,
    analysis_of (analyze (answers "[1]") Json.loads "2024-05-01T10:00:05" acme) = Some a
    /\ Json.loads "[1]" = Some (PList [PInt 1])
    /\ Dict.lookup "financial" a = Some (PList [PInt 1])
    /\ is_dict (PList [PInt 1]) = false.
Proof. eexists. split; [vm_compute; reflexivity |]. repeat split. Qed.

End AnalyzerFacts.

(** ** The report composer *)

Module ReportFacts.
Import Report ReportSpec.

Lemma append_assoc (a b c : string) : (a ++ b) ++ c = a ++ b ++ c.
Proof. induction a as [| x a IH]; cbn; [reflexivity | now rewrite IH]. Qed.

Lemma append_empty_r (a : string) : a ++ "" = a.
Proof. induction a as [| x a IH]; cbn; [reflexivity | now rewrite IH]. Qed.

Lemma lookup_set_same k v d : Dict.lookup k (Dict.set k v d) = Some v.
Proof.
  induction d as [| [k' v'] d IH]; cbn.
  - now rewrite String.eqb_refl.
  - destruct (String.eqb k' k) eqn:E; cbn; rewrite ?E, ?String.eqb_refl; auto.
Qed.

Lemma lookup_set_other k k' v d :
  String.eqb k' k = false -> Dict.lookup k (Dict.set k' v d) = Dict.lookup k d.
Proof.
  intros N. induction d as [| [k0 v0] d IH]; cbn.
  - now rewrite N.
  - destruct (String.eqb k0 k') eqn:E; cbn.
    + apply String.eqb_eq in E. subst k0. now rewrite N.
    + now rewrite IH.
Qed.

Lemma get_set_same k v dflt d : Dict.get k dflt (Dict.set k v d) = v.
Proof. unfold Dict.get. now rewrite lookup_set_same. Qed.

Lemma get_set_other k k' v dflt d :
  String.eqb k' k = false -> Dict.get k dflt (Dict.set k' v d) = Dict.get k dflt d.
Proof. intros N. unfold Dict.get. now rewrite lookup_set_other. Qed.

Lemma mem_set_other k k' v d :
  String.eqb k' k = false -> Dict.mem k (Dict.set k' v d) = Dict.mem k d.
Proof. intros N. unfold Dict.mem. now rewrite lookup_set_other. Qed.

Lemma concat_cons (x : string) (l : list string) :
  String.concat "" (x :: l) = x ++ String.concat "" l.
Proof.
  destruct l; cbn [String.concat]; [now rewrite append_empty_r | reflexivity].
Qed.

(** The loops of the section builders only append to the section. *)
Lemma financial_lines fields : forall section,
  fold_left financial_line fields section
  = section ++ String.concat "" (map field_line (filter not_summary fields)).
Proof.
  induction fields as [| [k v] fields IH]; intros section; cbn [fold_left].
  - cbn. now rewrite append_empty_r.
  - rewrite IH. unfold financial_line. cbn [filter]. unfold not_summary at 2.
    cbn [fst]. destruct (negb (String.eqb k "summary")); [| reflexivity].
    cbn [map]. rewrite concat_cons. unfold field_line at 2. cbn [fst snd].
    rewrite !append_assoc. reflexivity.
Qed.

Lemma item_lines l : forall section,
  fold_left (fun section item => section ++ "- " ++ py_str item ++ nl) l section
  = section ++ String.concat "" (map item_line l).
Proof.
  induction l as [| item l IH]; intros section; cbn [fold_left map].
  - cbn. now rewrite append_empty_r.
  - rewrite IH, concat_cons. unfold item_line at 2.
    rewrite !append_assoc. reflexivity.
Qed.

Lemma swot_category_block fields section category :
  swot_category fields section category = section ++ category_block fields category.
Proof.
  unfold swot_category, category_block.
  destruct (Dict.get category (PList []) fields); rewrite ?item_lines;
    rewrite !append_assoc; reflexivity.
Qed.

Lemma swot_blocks fields section :
  fold_left (swot_category fields) swot_categories section
  = section ++ category_block fields "strengths" ++ category_block fields "weaknesses"
    ++ category_block fields "opportunities" ++ category_block fields "threats".
Proof.
  unfold swot_categories. cbn [fold_left].
  rewrite !swot_category_block, !append_assoc. reflexivity.
Qed.

Lemma header_returns now query insights :
  _build_header now query insights = Ok (text_of (_build_header now query insights)).
Proof. reflexivity. Qed.

Lemma summary_returns insights :
  _build_executive_summary insights = Ok (text_of (_build_executive_summary insights)).
Proof.
  unfold _build_executive_summary. destruct (Dict.mem "error" insights); reflexivity.
Qed.

(** A section builder returns the empty text for a dimension that is not
    present, and a text that opens with the heading for one that is. *)
Lemma build_section_absent d insights analysis :
  Dict.get "analysis" (PDict []) insights = PDict analysis ->
  present d analysis = false ->
  build_section d insights = Ok "".
Proof.
  intros H. unfold present.
  destruct d; unfold build_section, _build_financial_section, _build_history_section,
    _build_industry_section, _build_swot_section, _build_predictions_section,
    narrative_section; rewrite H; cbn [py_get bind Analyzer.key]; unfold Dict.get;
    (destruct (Dict.lookup _ analysis) as [v |]; [intros ->; reflexivity | reflexivity]).
Qed.

Lemma build_section_present d insights analysis :
  Dict.get "analysis" (PDict []) insights = PDict analysis ->
  present d analysis = true ->
  exists body, build_section d insights = Ok (heading d ++ body).
Proof.
  intros H. unfold present.
  destruct d; unfold build_section, _build_financial_section, _build_history_section,
    _build_industry_section, _build_swot_section, _build_predictions_section,
    narrative_section, heading; rewrite H; cbn [py_get bind Analyzer.key];
    unfold Dict.get;
    (destruct (Dict.lookup _ analysis) as [v |]; [| discriminate]);
    intros ->; cbn [negb];
    rewrite ?append_assoc;
    destruct v; rewrite ?financial_lines, ?swot_blocks, ?append_assoc;
    try (eexists; reflexivity).
  all: match goal with |- context [truthy ?t] => destruct (truthy t) end;
    rewrite ?append_assoc; eexists; reflexivity.
Qed.

Lemma generate_parts now query insights sf sh si ss sp :
  build_section Analyzer.financial insights = Ok sf ->
  build_section Analyzer.history insights = Ok sh ->
  build_section Analyzer.industry insights = Ok si ->
  build_section Analyzer.swot insights = Ok ss ->
  build_section Analyzer.predictions insights = Ok sp ->
  generate now query insights
  = Ok (text_of (_build_header now query insights)
        ++ text_of (_build_executive_summary insights)
        ++ sf ++ sh ++ si ++ ss ++ sp ++ text_of _build_footer).
Proof.
  cbn [build_section]. intros Hf Hh Hi Hs Hp. unfold generate.
  pose proof (header_returns now query insights) as H0.
  pose proof (summary_returns insights) as H1.
  remember (text_of (_build_header now query insights)) as header.
  remember (text_of (_build_executive_summary insights)) as summary.
  rewrite H0, H1, Hf, Hh, Hi, Hs, Hp. unfold _build_footer.
  cbn [bind try_except text_of]. rewrite !append_assoc. reflexivity.
Qed.

Lemma build_section_returns d insights analysis :
  Dict.get "analysis" (PDict []) insights = PDict analysis ->
  exists s, build_section d insights = Ok s.
Proof.
  intros H. destruct (present d analysis) eqn:P.
  - destruct (build_section_present d insights analysis H P) as [body Hb]. eauto.
  - rewrite (build_section_absent d insights analysis H P). eauto.
Qed.

(** A section only reads its own entry of [analysis]. *)
Lemma build_section_reads_its_entry d insights1 insights2 a1 a2 :
  Dict.get "analysis" (PDict []) insights1 = PDict a1 ->
  Dict.get "analysis" (PDict []) insights2 = PDict a2 ->
  Dict.lookup (Analyzer.key d) a1 = Dict.lookup (Analyzer.key d) a2 ->
  build_section d insights1 = build_section d insights2.
Proof.
  intros H1 H2.
  destruct d; unfold build_section, _build_financial_section, _build_history_section,
    _build_industry_section, _build_swot_section, _build_predictions_section,
    narrative_section; rewrite H1, H2; cbn [py_get bind Analyzer.key]; unfold Dict.get;
    intros ->; reflexivity.
Qed.

Lemma swot_summary_section insights analysis text :
  Dict.get "analysis" (PDict []) insights = PDict analysis ->
  Dict.lookup "swot" analysis = Some (summary_only text) ->
  _build_swot_section insights = Ok empty_swot_section.
Proof.
  intros H L. unfold _build_swot_section. rewrite H. cbn [py_get bind].
  unfold Dict.get. rewrite L. reflexivity.
Qed.

(** C3 (the method as written; the load of the file is left aside).
    For a financial dimension that is a non-empty mapping with ASCII field
    names, the section is the heading followed by one [**Field:** value]
    line per field other than [summary], in the order of the mapping; the
    [summary] field is never rendered, so for the mapping that is exactly
    the [summary] fallback the section is the heading alone. *)
Theorem financial_section_never_renders_summary
  (insights analysis fields : pydict) :
  Dict.get "analysis" (PDict []) insights = PDict analysis ->
  Dict.lookup "financial" analysis = Some (PDict fields) ->
  fields <> [] ->
  forallb (fun kv => PipelineSpec.all_chars PipelineSpec.is_ascii (fst kv)) fields = true ->
  _build_financial_section insights
  = Ok (heading Analyzer.financial
        ++ String.concat "" (map field_line (filter not_summary fields)))
  /\ (forall text,
        fields = [("summary", text)] ->
        _build_financial_section insights = Ok (heading Analyzer.financial)).
Proof.
  intros H L N _.
  assert (E : _build_financial_section insights
              = Ok (heading Analyzer.financial
                    ++ String.concat "" (map field_line (filter not_summary fields)))).
  { unfold _build_financial_section. rewrite H. cbn [py_get bind].
    unfold Dict.get. rewrite L.
    destruct fields as [| kv fields]; [contradiction |].
    cbn [truthy negb]. rewrite financial_lines. reflexivity. }
  split; [exact E |].
  intros text ->. rewrite E. reflexivity.
Qed.

Lemma financial_section_never_renders_summary_witness :
  _build_financial_section financial_parsed
  = Ok ("## Financial Analysis" ++ nl ++ nl
        ++ "**Revenue:** growing" ++ nl ++ nl
        ++ "**Investment Rating:** buy" ++ nl ++ nl).
Proof.
  apply (proj1 (financial_section_never_renders_summary financial_parsed
            [("financial", PDict [("revenue", PStr "growing");
                                  ("summary", PStr "overall sound");
                                  ("investment_rating", PStr "buy")]);
             ("swot", summary_only "Strong brand, weak margins.")]
            [("revenue", PStr "growing"); ("summary", PStr "overall sound");
             ("investment_rating", PStr "buy")]
            eq_refl eq_refl ltac:(discriminate) eq_refl)).
Defined.

(** The financial dimension is exactly the [summary] fallback.  The file as
    shipped renders nothing, since it does not load; and the method as
    written gives the heading alone, the text being nowhere in the
    report. *)
Lemma financial_summary_is_not_shown :
  from_module (generate "2024-05-01T10:00:09" "Acme Corp" financial_fallback)
  = SyntaxError "unmatched '}'"
  /\ _build_financial_section financial_fallback = Ok ("## Financial Analysis" ++ nl ++ nl)
  /\ exists report,
       generate "2024-05-01T10:00:09" "Acme Corp" financial_fallback = Ok report
       /\ contains "Revenue is growing." report = false.
Proof.
  split; [reflexivity |]. split; [reflexivity |].
  eexists. split; [reflexivity |]. vm_compute. reflexivity.
Qed.

Lemma header_text now query insights :
  text_of (_build_header now query insights)
  = PipelineSpec.header query
      (py_str (Dict.get "timestamp" (PStr now) insights))
      (py_str (Dict.get "sources_analyzed" (PInt 0) insights)).
Proof. reflexivity. Qed.

Lemma summary_text_built insights :
  text_of (_build_executive_summary insights) = PipelineSpec.summary_text insights.
Proof.
  unfold _build_executive_summary, PipelineSpec.summary_text.
  destruct (Dict.mem "error" insights); reflexivity.
Qed.

(** C5 (the methods as written; the load of the file is left aside).
    When the [analysis] of the record is a mapping, every section builder
    returns: the empty text for a dimension that is not present with a
    truthy value, a text opening with the dimension's heading for one that
    is.  The report is the header (title with the query, timestamp, source
    count, version 1.0), the executive summary, the five section texts in
    the order of the dimensions, and the fixed footer; for an empty
    [analysis] it is the header, the summary and the footer only.  The
    executive summary is the note of the error when the record has
    [error] and the overview paragraph with the source count otherwise:
    it does not read [analysis], so that it is the same for an empty
    analysis as for a complete one.  When [analysis] is not a mapping, the
    report is the error report, which has no section. *)
Theorem report_is_header_summary_sections_footer
  (now query : string) (insights : pydict) :
  (forall analysis,
      Dict.get "analysis" (PDict []) insights = PDict analysis ->
      (forall d, exists s,
          build_section d insights = Ok s
          /\ (present d analysis = false -> s = "")
          /\ (present d analysis = true -> exists body, s = heading d ++ body))
      /\ generate now query insights
         = Ok (PipelineSpec.header query
                 (py_str (Dict.get "timestamp" (PStr now) insights))
                 (py_str (Dict.get "sources_analyzed" (PInt 0) insights))
               ++ PipelineSpec.summary_text insights
               ++ text_of (build_section Analyzer.financial insights)
               ++ text_of (build_section Analyzer.history insights)
               ++ text_of (build_section Analyzer.industry insights)
               ++ text_of (build_section Analyzer.swot insights)
               ++ text_of (build_section Analyzer.predictions insights)
               ++ PipelineSpec.footer_text)
      /\ (analysis = [] ->
          generate now query insights
          = Ok (PipelineSpec.header query
                  (py_str (Dict.get "timestamp" (PStr now) insights))
                  (py_str (Dict.get "sources_analyzed" (PInt 0) insights))
                ++ PipelineSpec.summary_text insights
                ++ PipelineSpec.footer_text)))
  /\ (forall v,
        _build_executive_summary (Dict.set "analysis" v insights)
        = _build_executive_summary insights)
  /\ (is_dict (Dict.get "analysis" (PDict []) insights) = false ->
      generate now query insights
      = Ok (PipelineSpec.error_report_text query
              ("'" ++ type_name (Dict.get "analysis" (PDict []) insights)
               ++ "' object has no attribute 'get'") now)).
Proof.
  split; [| split].
  - intros analysis H.
    assert (G : generate now query insights
         = Ok (PipelineSpec.header query
                 (py_str (Dict.get "timestamp" (PStr now) insights))
                 (py_str (Dict.get "sources_analyzed" (PInt 0) insights))
               ++ PipelineSpec.summary_text insights
               ++ text_of (build_section Analyzer.financial insights)
               ++ text_of (build_section Analyzer.history insights)
               ++ text_of (build_section Analyzer.industry insights)
               ++ text_of (build_section Analyzer.swot insights)
               ++ text_of (build_section Analyzer.predictions insights)
               ++ PipelineSpec.footer_text)).
    { destruct (build_section_returns Analyzer.financial _ _ H) as [sf Hf].
      destruct (build_section_returns Analyzer.history _ _ H) as [sh Hh].
      destruct (build_section_returns Analyzer.industry _ _ H) as [si Hi].
      destruct (build_section_returns Analyzer.swot _ _ H) as [ss Hs].
      destruct (build_section_returns Analyzer.predictions _ _ H) as [sp Hp].
      rewrite (generate_parts now query insights sf sh si ss sp Hf Hh Hi Hs Hp).
      rewrite Hf, Hh, Hi, Hs, Hp, header_text, summary_text_built. reflexivity. }
    split; [| split].
    + intros d. destruct (present d analysis) eqn:P.
      * destruct (build_section_present d insights analysis H P) as [body Hb].
        exists (heading d ++ body). split; [exact Hb |].
        split; [discriminate | eauto].
      * exists "". split; [apply (build_section_absent d insights analysis H P) |].
        split; [reflexivity | discriminate].
    + exact G.
    + intros ->. rewrite G.
      rewrite !(build_section_absent _ insights [] H eq_refl). reflexivity.
  - intros v. unfold _build_executive_summary.
    now rewrite mem_set_other, !get_set_other by reflexivity.
  - intros N. unfold generate, _build_financial_section.
    rewrite header_returns, summary_returns. cbn [bind].
    destruct (Dict.get "analysis" (PDict []) insights); try discriminate; reflexivity.
Qed.

Lemma report_is_header_summary_sections_footer_witness :
  generate "2024-05-01T10:00:09" "Acme Corp" nothing_analyzed
  = Ok (PipelineSpec.header "Acme Corp" "2024-05-01T10:00:05" "0"
        ++ PipelineSpec.overview "0"
        ++ PipelineSpec.footer_text).
Proof.
  apply (proj2 (proj2 (proj1 (report_is_header_summary_sections_footer
           "2024-05-01T10:00:09" "Acme Corp" nothing_analyzed) [] eq_refl))).
  reflexivity.
Defined.

(** Nothing was analyzed.  The file as shipped renders no report, since it
    does not load; and the executive summary of the methods as written is
    the one of a record with the five dimensions: it announces the five
    analyses. *)
Lemma executive_summary_is_not_degraded :
  from_module (generate "2024-05-01T10:00:09" "Acme Corp" nothing_analyzed)
  = SyntaxError "unmatched '}'"
  /\ _build_executive_summary nothing_analyzed
     = _build_executive_summary PipelineSpec.everything_analyzed
  /\ exists report,
       generate "2024-05-01T10:00:09" "Acme Corp" nothing_analyzed = Ok report
       /\ contains ("The analysis includes financial metrics, historical background, "
                    ++ "industry positioning, SWOT analysis, and future predictions.")
            report = true.
Proof.
  split; [reflexivity |]. split; [reflexivity |].
  eexists. split; [reflexivity |]. vm_compute. reflexivity.
Qed.

(** The header and the summary do not read [analysis]. *)
Lemma header_ignores_analysis now query insights v :
  _build_header now query (Dict.set "analysis" v insights)
  = _build_header now query insights.
Proof.
  unfold _build_header. now rewrite !get_set_other by reflexivity.
Qed.

Lemma summary_ignores_analysis insights v :
  _build_executive_summary (Dict.set "analysis" v insights)
  = _build_executive_summary insights.
Proof.
  unfold _build_executive_summary.
  now rewrite mem_set_other, !get_set_other by reflexivity.
Qed.

(** C9. When the swot dimension is the [summary] fallback, the SWOT
    section of the method as written is its heading and the four category
    headings, each without an item, and the report of the methods as
    written does not depend on the summary text: replacing it by any other
    text gives the same report.  The file as shipped renders none of it: a
    program that imports the module gets the syntax error of the stray
    brace in place of the report. *)
Theorem swot_summary_is_never_rendered
  (now query : string) (insights analysis : pydict) (text : string) :
  Dict.get "analysis" (PDict []) insights = PDict analysis ->
  Dict.lookup "swot" analysis = Some (summary_only text) ->
  _build_swot_section insights = Ok empty_swot_section
  /\ from_module (generate now query insights) = SyntaxError "unmatched '}'"
  /\ forall text',
       generate now query (with_swot (summary_only text') insights analysis)
       = generate now query insights.
Proof.
  intros H L. split; [apply (swot_summary_section _ _ _ H L) |].
  split; [reflexivity |].
  intros text'. unfold with_swot.
  set (analysis' := Dict.set "swot" (summary_only text') analysis).
  set (insights' := Dict.set "analysis" (PDict analysis') insights).
  assert (H' : Dict.get "analysis" (PDict []) insights' = PDict analysis')
    by apply get_set_same.
  assert (S : forall d, build_section d insights' = build_section d insights).
  { intros d. destruct d;
      try (apply (build_section_reads_its_entry _ _ _ _ _ H' H);
           apply lookup_set_other; reflexivity).
    cbn [build_section].
    rewrite (swot_summary_section _ _ _ H L).
    apply (swot_summary_section _ _ text' H'). apply lookup_set_same. }
  destruct (build_section_returns Analyzer.financial _ _ H) as [sf Hf].
  destruct (build_section_returns Analyzer.history _ _ H) as [sh Hh].
  destruct (build_section_returns Analyzer.industry _ _ H) as [si Hi].
  destruct (build_section_returns Analyzer.swot _ _ H) as [ss Hs].
  destruct (build_section_returns Analyzer.predictions _ _ H) as [sp Hp].
  rewrite (generate_parts now query insights sf sh si ss sp Hf Hh Hi Hs Hp).
  rewrite <- (S Analyzer.financial) in Hf. rewrite <- (S Analyzer.history) in Hh.
  rewrite <- (S Analyzer.industry) in Hi. rewrite <- (S Analyzer.swot) in Hs.
  rewrite <- (S Analyzer.predictions) in Hp.
  rewrite (generate_parts now query insights' sf sh si ss sp Hf Hh Hi Hs Hp).
  unfold insights'. now rewrite header_ignores_analysis, summary_ignores_analysis.
Qed.

Lemma swot_summary_is_never_rendered_witness :
  _build_swot_section financial_parsed = Ok empty_swot_section
  /\ generate "2024-05-01T10:00:09" "Acme Corp"
       (with_swot (summary_only "Entirely different words.") financial_parsed
          [("financial", PDict [("revenue", PStr "growing");
                                ("summary", PStr "overall sound");
                                ("investment_rating", PStr "buy")]);
           ("swot", summary_only "Strong brand, weak margins.")])
     = generate "2024-05-01T10:00:09" "Acme Corp" financial_parsed.
Proof.
  destruct (swot_summary_is_never_rendered "2024-05-01T10:00:09" "Acme Corp"
              financial_parsed
              [("financial", PDict [("revenue", PStr "growing");
                                    ("summary", PStr "overall sound");
                                    ("investment_rating", PStr "buy")]);
               ("swot", summary_only "Strong brand, weak margins.")]
              "Strong brand, weak margins." eq_refl eq_refl) as [Hs [_ Hg]].
  split; [exact Hs | apply Hg].
Defined.

(** C10. The record of the catastrophic path, which [analyze] returns
    when the context cannot be built, has the keys [timestamp], [query],
    [error] and [analysis] and no [sources_analyzed]; whatever the input
    record, the header of the method as written reads
    [Sources Analyzed: 0], and the report of the methods as written is
    that header, the note of the error and the footer.  The file as
    shipped renders none of it: a program that imports the module gets
    the syntax error of the stray brace in place of the report. *)
Theorem error_record_header_reports_zero_sources
  (now : string) (data : pydict) (error : string) (now' query : string) :
  exists insights,
    Analyzer._error_insights now data error = Ok (PDict insights)
    /\ (forall generate_content json_loads e,
          Analyzer._prepare_context data = Raise e ->
          exc_str e = error ->
          Analyzer.analyze generate_content json_loads now data = Ok (PDict insights))
    /\ Dict.keys insights = ["timestamp"; "query"; "error"; "analysis"]
    /\ Dict.mem "sources_analyzed" insights = false
    /\ from_module (generate now' query insights) = SyntaxError "unmatched '}'"
    /\ _build_header now' query insights = Ok (header_without_sources query now)
    /\ generate now' query insights
       = Ok (header_without_sources query now
             ++ "## Executive Summary" ++ nl ++ nl
             ++ "*Note: Analysis encountered an issue: " ++ error ++ "*" ++ nl ++ nl
             ++ text_of _build_footer).
Proof.
  eexists. split; [reflexivity |].
  split; [intros gc jl e He <-; apply (AnalyzerFacts.analyze_error gc jl now data e He) |].
  repeat split.
  erewrite generate_parts;
    try (eapply build_section_absent; reflexivity).
  cbn [text_of _build_header _build_executive_summary Dict.mem Dict.lookup Dict.get
       String.eqb Ascii.eqb Bool.eqb py_str].
  unfold header_without_sources. rewrite !append_assoc. reflexivity.
Qed.

Lemma error_record_header_reports_zero_sources_witness :
  exists insights,
    Analyzer.analyze AnalyzerSpec.unreachable Json.loads "2024-05-01T10:00:05"
      AnalyzerSpec.malformed = Ok (PDict insights)
    /\ _build_header "2024-05-01T10:00:09" "Acme Corp" insights
       = Ok (header_without_sources "Acme Corp" "2024-05-01T10:00:05").
Proof.
  destruct (error_record_header_reports_zero_sources "2024-05-01T10:00:05"
              AnalyzerSpec.malformed "sequence item 0: expected str instance, int found"
              "2024-05-01T10:00:09" "Acme Corp")
    as [insights [_ [Ha [_ [_ [_ [Hh _]]]]]]].
  exists insights. split; [| exact Hh].
  apply (Ha AnalyzerSpec.unreachable Json.loads
           (TypeError "sequence item 0: expected str instance, int found"));
    reflexivity.
Defined.

End ReportFacts.

(** ** Runs of the whole pipeline *)

Module Runs.
Import AnalyzerSpec ReportSpec.

Example title_of_field :
  Str.title (Str.replace "_" " " "investment_rating") = "Investment Rating".
Proof. reflexivity. Qed.

Example str_of_nested :
  py_str (PDict [("a", PList [PInt (-3); PStr "it's"; PNone])])
  = "{'a': [-3, " ++ quoted "it's" ++ ", None]}".
Proof. reflexivity. Qed.

Example loads_object :
  Json.loads ("{" ++ quoted "revenue" ++ ": " ++ quoted "growing" ++ ", "
                  ++ quoted "n" ++ ": [1, -2, null, true], " ++ quoted "revenue" ++ ": 3}")
  = Some (PDict [("revenue", PInt 3);
                 ("n", PList [PInt 1; PInt (-2); PNone; PBool true])]).
Proof. reflexivity. Qed.

Example loads_refuses :
  map Json.loads ["not json"; "01"; "[1,]"; ""; "{" ++ quoted "a" ++ " 1}"]
  = [None; None; None; None; None].
Proof. reflexivity. Qed.

Example context_of_acme :
  Analyzer._prepare_context acme
  = Ok ("Analyze the following information:" ++ nl ++ nl ++
        "Query: Acme Corp" ++ nl ++
        "Sources: Google Search, Company Database" ++ nl ++ nl ++
        nl ++ "GOOGLE:" ++ nl ++
        "[{'title': 'Acme Corp - Official Information'}]..." ++ nl ++
        nl ++ "COMPANY:" ++ nl ++
        "name: Acme Corp" ++ nl ++
        "industry: Technology" ++ nl).
Proof. reflexivity. Qed.

End Runs.

(** * Further properties of the code *)

(** ** Strings *)

Module StrFacts.
Import PipelineSpec.

Lemma mem_char_append c a b :
  Str.mem_char c (a ++ b) = Str.mem_char c a || Str.mem_char c b.
Proof.
  induction a as [| x a IH]; cbn; [reflexivity |].
  rewrite IH. now rewrite orb_assoc.
Qed.

Lemma replace_space_no_space q :
  Str.mem_char " " (Str.replace " " "_" q) = false.
Proof.
  induction q as [| a q IH]; cbn; [reflexivity |].
  destruct (Ascii.eqb a " ") eqn:E; cbn; [exact IH |].
  now rewrite E, IH.
Qed.

Lemma replace_space_length q :
  String.length (Str.replace " " "_" q) = String.length q.
Proof.
  induction q as [| a q IH]; cbn; [reflexivity |].
  destruct (Ascii.eqb a " "); cbn; now rewrite IH.
Qed.

Lemma length_append (a b : string) :
  String.length (a ++ b) = String.length a + String.length b.
Proof. induction a as [| x a IH]; cbn; [reflexivity | now rewrite IH]. Qed.

Lemma starts_with_append a b : starts_with a (a ++ b) = true.
Proof.
  induction a as [| x a IH]; cbn; [reflexivity |].
  now rewrite Ascii.eqb_refl, IH.
Qed.

Lemma take_length n : forall s,
  String.length (Str.take n s) = Nat.min n (String.length s).
Proof.
  induction n as [| n IH]; intros [| c s]; cbn; try reflexivity.
  now rewrite IH.
Qed.

Lemma take_prefix n : forall s, starts_with (Str.take n s) s = true.
Proof.
  induction n as [| n IH]; intros [| c s]; cbn; try reflexivity.
  now rewrite Ascii.eqb_refl, IH.
Qed.

Lemma take_short n : forall s, String.length s <= n -> Str.take n s = s.
Proof.
  induction n as [| n IH]; intros [| c s]; cbn; intros H; try reflexivity; try lia.
  rewrite IH by lia. reflexivity.
Qed.

Lemma append_cancel_l (a b c : string) : a ++ b = a ++ c -> b = c.
Proof.
  induction a as [| x a IH]; cbn; intros H; [exact H |].
  injection H as H. auto.
Qed.

Lemma all_chars_append p a b :
  all_chars p (a ++ b) = all_chars p a && all_chars p b.
Proof.
  induction a as [| x a IH]; cbn; [reflexivity |].
  now rewrite IH, andb_assoc.
Qed.

Lemma lower_char_plain c :
  Ascii.eqb c " " = false ->
  negb (Ascii.eqb (Str.to_lower c) " ") && negb (Str.is_upper (Str.to_lower c)) = true.
Proof.
  destruct c as [[] [] [] [] [] [] [] []]; vm_compute; intros H;
    reflexivity || discriminate.
Qed.



End StrFacts.

(** ** More on the collector *)

Module ScraperMore.
Import Scraper ScraperSpec PipelineSpec.

Lemma wikipedia_found requests_get q :
  wikipedia requests_get q
  = Ok (match found (requests_get (wikipedia_url q)) with
        | Some paragraphs => wikipedia_entry q paragraphs
        | None => PNone
        end).
Proof.
  unfold wikipedia, found, wikipedia_url.
  destruct (requests_get _) as [response | e]; cbn; [| reflexivity].
  destruct (status_code response =? 200)%Z; [| reflexivity].
  destruct (content_div response); reflexivity.
Qed.

(** X1. [_scrape_wikipedia] never raises and asks the HTTP layer for one
    URL only.  It returns the title and the first five paragraphs joined
    by spaces when the answer has status 200 and the content [div], and
    [None] in every other case (an exception, another status, no [div]);
    what it returns for a page is truthy even when the [div] has no
    paragraph, so that such a page counts as a source with an empty
    content. *)
Theorem wikipedia_page_or_none
  (requests_get : string -> result page) (q : string) :
  wikipedia requests_get q
  = Ok (match found (requests_get (wikipedia_url q)) with
        | Some paragraphs => wikipedia_entry q paragraphs
        | None => PNone
        end)
  /\ (forall requests_get',
        requests_get' (wikipedia_url q) = requests_get (wikipedia_url q) ->
        wikipedia requests_get' q = wikipedia requests_get q)
  /\ (forall paragraphs, truthy (wikipedia_entry q paragraphs) = true)
  /\ wikipedia_entry q [] = PDict [("title", PStr q); ("content", PStr "")].
Proof.
  split; [apply wikipedia_found |].
  split; [| split; reflexivity].
  intros requests_get' H. rewrite !wikipedia_found. now rewrite H.
Qed.

Lemma wikipedia_page_or_none_witness :
  wikipedia online "Acme Corp" = wikipedia (fun _ => online "") "Acme Corp".
Proof.
  apply (proj1 (proj2 (wikipedia_page_or_none (fun _ => online "") "Acme Corp"))).
  reflexivity.
Defined.

(** X2. The URL asked for a query is the article prefix followed by the
    query with every space replaced by an underscore: it has no space and
    is 30 characters longer than the query. *)
Theorem wikipedia_url_has_no_space (q : string) :
  Str.mem_char " " (wikipedia_url q) = false
  /\ String.length (wikipedia_url q) = 30 + String.length q
  /\ starts_with "https://en.wikipedia.org/wiki/" (wikipedia_url q) = true.
Proof.
  unfold wikipedia_url. split; [| split].
  - rewrite StrFacts.mem_char_append, StrFacts.replace_space_no_space. reflexivity.
  - rewrite StrFacts.length_append, StrFacts.replace_space_length. reflexivity.
  - apply StrFacts.starts_with_append.
Qed.

(** X3. With the source methods of the class, [scrape] always lists
    Google Search and Company Database, with the entries of the two stubs:
    the result has three sources, Wikipedia first, when the article is
    found, and two otherwise.  The case without any source never occurs. *)
Theorem scrape_default_has_two_or_three_sources
  (requests_get : string -> result page) (now q : string) :
  scrape (Default requests_get) now q
  = Ok (PDict
      [("query", PStr q);
       ("timestamp", PStr now);
       ("sources", PList
          (match found (requests_get (wikipedia_url q)) with
           | Some _ => [PStr "Wikipedia"]
           | None => []
           end ++ [PStr "Google Search"; PStr "Company Database"]));
       ("raw_content", PDict
          (match found (requests_get (wikipedia_url q)) with
           | Some paragraphs => [("wikipedia", wikipedia_entry q paragraphs)]
           | None => []
           end ++ [("google", google_entry q); ("company", company_entry q)]))]).
Proof.
  rewrite (ScraperFacts.scrape_default_unfold requests_get now q _
             (wikipedia_found requests_get q)).
  destruct (found (requests_get (wikipedia_url q))); reflexivity.
Qed.

End ScraperMore.

(** ** More on the insight synthesizer *)

Module AnalyzerMore.
Import Analyzer AnalyzerSpec PipelineSpec.

Lemma join_items_ok l : forall i, is_ok (join_items i l) = forallb is_str l.
Proof.
  induction l as [| v l IH]; intros i; cbn; [reflexivity |].
  destruct v; cbn; try reflexivity.
  specialize (IH (S i)). destruct (join_items (S i) l); cbn in *; exact IH.
Qed.

Lemma py_join_ok sep v : is_ok (py_join sep v) = joinable v.
Proof.
  destruct v; cbn; try reflexivity.
  pose proof (join_items_ok l 0) as H.
  destruct (join_items 0 l); cbn in *; exact H.
Qed.

(** X4. For a record of JSON values (None, booleans, numbers, strings,
    lists and mappings with string keys), [_prepare_context] raises
    exactly when the [sources] of the record (an empty list when the key
    is missing) cannot be joined, that is when it is not a string, a list
    of strings or a mapping, or when its [raw_content] (an empty mapping
    when the key is missing) is not a mapping.  The [query] never makes
    it raise. *)
Theorem prepare_context_raises_iff (data : pydict) :
  is_ok (_prepare_context data)
  = joinable (Dict.get "sources" (PList []) data)
    && is_dict (Dict.get "raw_content" (PDict []) data).
Proof.
  unfold _prepare_context.
  pose proof (py_join_ok ", " (Dict.get "sources" (PList []) data)) as J.
  destruct (py_join ", " (Dict.get "sources" (PList []) data)) as [joined | e];
    cbn in J; rewrite <- J; cbn [bind is_ok andb]; [| reflexivity].
  destruct (Dict.get "raw_content" (PDict []) data); reflexivity.
Qed.

Lemma mem_set k k' v d :
  Dict.mem k (Dict.set k' v d) = String.eqb k' k || Dict.mem k d.
Proof.
  unfold Dict.mem. destruct (String.eqb k' k) eqn:E.
  - apply String.eqb_eq in E. subst k'. now rewrite ReportFacts.lookup_set_same.
  - now rewrite ReportFacts.lookup_set_other.
Qed.

(** X5. [validate_data] only checks that the three keys are there: a
    record that passes it still passes after any of its values is
    replaced, and when [sources] is replaced by a value that cannot be
    joined, [analyze] of the validated record takes the catastrophic path
    and returns the record with [error]. *)
Theorem validated_record_can_fail_analysis
  (generate_content : string -> result string)
  (json_loads : string -> option pyval) (now : string)
  (data : pydict) (k : string) (v : pyval) :
  Scraper.validate_data data = true ->
  Scraper.validate_data (Dict.set k v data) = true
  /\ (joinable v = false ->
      exists error,
        analyze generate_content json_loads now (Dict.set "sources" v data)
        = Ok (error_insights now (Dict.set "sources" v data) error)).
Proof.
  intros V. split.
  - unfold Scraper.validate_data in *. cbn [forallb] in *.
    rewrite !mem_set.
    apply andb_prop in V as [V1 V]. apply andb_prop in V as [V2 V].
    apply andb_prop in V as [V3 _]. rewrite V1, V2, V3.
    now rewrite !orb_true_r.
  - intros J.
    pose proof (prepare_context_raises_iff (Dict.set "sources" v data)) as P.
    rewrite ReportFacts.get_set_same, J in P. cbn in P.
    destruct (_prepare_context (Dict.set "sources" v data)) as [c | e] eqn:E;
      [discriminate |].
    exists (exc_str e). apply (AnalyzerFacts.analyze_error _ _ now _ e E).
Qed.

Lemma validated_record_can_fail_analysis_witness :
  Scraper.validate_data (Dict.set "sources" PNone acme) = true
  /\ exists error,
       analyze unreachable Json.loads "2024-05-01T10:00:05" (Dict.set "sources" PNone acme)
       = Ok (error_insights "2024-05-01T10:00:05" (Dict.set "sources" PNone acme) error).
Proof.
  destruct (validated_record_can_fail_analysis unreachable Json.loads
              "2024-05-01T10:00:05" acme "sources" PNone eq_refl) as [V E].
  split; [exact V | apply E; reflexivity].
Defined.

(** X6. A record without [query], [sources] and [raw_content] is analyzed
    on the normal path: the context is the three fixed lines with the
    query [Unknown] and no source, and the record returned has the query
    [Unknown], zero sources analyzed and whatever the backend gives for
    that context. *)
Theorem analyze_record_without_keys
  (generate_content : string -> result string)
  (json_loads : string -> option pyval) (now : string) (data : pydict) :
  Dict.lookup "query" data = None ->
  Dict.lookup "sources" data = None ->
  Dict.lookup "raw_content" data = None ->
  _prepare_context data = Ok bare_context
  /\ analyze generate_content json_loads now data
     = Ok (PDict [("timestamp", PStr now);
                  ("query", PStr "Unknown");
                  ("sources_analyzed", PInt 0);
                  ("analysis",
                   PDict (kept_entries generate_content json_loads bare_context))]).
Proof.
  intros Hq Hs Hr.
  assert (P : _prepare_context data = Ok bare_context).
  { unfold _prepare_context, Dict.get. rewrite Hq, Hs, Hr. reflexivity. }
  split; [exact P |].
  rewrite (AnalyzerFacts.analyze_ok generate_content json_loads now data bare_context 0 P).
  - unfold insights_of, Dict.get. now rewrite Hq.
  - unfold Dict.get. now rewrite Hs.
Qed.

Lemma analyze_record_without_keys_witness :
  analyze unreachable Json.loads "2024-05-01T10:00:05" [("note", PStr "nothing collected")]
  = Ok (PDict [("timestamp", PStr "2024-05-01T10:00:05");
               ("query", PStr "Unknown");
               ("sources_analyzed", PInt 0);
               ("analysis", PDict [])]).
Proof.
  apply (proj2 (analyze_record_without_keys unreachable Json.loads
                  "2024-05-01T10:00:05" [("note", PStr "nothing collected")]
                  eq_refl eq_refl eq_refl)).
Defined.

(** X7. For a source whose content is not a mapping, the context gets the
    upper-cased name of the source, then at most the first 500 characters of
    [str(content)], then the marker [...]; the marker is appended also when
    the text is shorter than 500 characters and nothing was cut. *)
Theorem excerpt_is_bounded (context source : string) (content : pyval) :
  is_dict content = false ->
  exists excerpt,
    add_source_excerpt context (source, content)
    = context ++ nl ++ Str.upper source ++ ":" ++ nl ++ excerpt ++ "..." ++ nl
    /\ String.length excerpt = Nat.min 500 (String.length (py_str content))
    /\ starts_with excerpt (py_str content) = true
    /\ (String.length (py_str content) <= 500 -> excerpt = py_str content).
Proof.
  intros D. exists (Str.take 500 (py_str content)).
  split; [| split; [apply StrFacts.take_length
                   | split; [apply StrFacts.take_prefix | apply StrFacts.take_short]]].
  unfold add_source_excerpt.
  destruct content; try discriminate; rewrite !ReportFacts.append_assoc; reflexivity.
Qed.

Lemma excerpt_is_bounded_witness :
  add_source_excerpt "" ("google", PStr "short text")
  = nl ++ "GOOGLE:" ++ nl ++ "short text..." ++ nl.
Proof.
  destruct (excerpt_is_bounded "" "google" (PStr "short text") eq_refl)
    as [excerpt [E [_ [_ S]]]].
  rewrite E, (S ltac:(cbn; lia)). reflexivity.
Defined.

(** X8. The prompt of a dimension is the shared context followed by the
    instruction of the dimension, and two dimensions never have the same
    prompt for a context: a backend can tell from the prompt which
    dimension it is asked for. *)
Theorem prompts_are_distinct (d d' : dimension) (context : string) :
  starts_with context (prompt d context) = true
  /\ (prompt d context = prompt d' context <-> d = d').
Proof.
  split; [apply StrFacts.starts_with_append |].
  split; [| now intros ->].
  unfold prompt. intros H. apply StrFacts.append_cancel_l in H.
  destruct d, d'; try reflexivity; vm_compute in H; discriminate.
Qed.

Lemma prompts_are_distinct_witness :
  prompt financial acme_context <> prompt swot acme_context.
Proof.
  intros H.
  apply (proj1 (proj2 (prompts_are_distinct financial swot acme_context))) in H.
  discriminate.
Defined.

(** X19. For a record without [query], the two paths of [analyze] do not
    give the same query: the record of the normal path has the query
    [Unknown], the record of the catastrophic path has the query [None]. *)
Theorem missing_query_differs_between_paths
  (generate_content : string -> result string)
  (json_loads : string -> option pyval) (now : string) (data : pydict) :
  Dict.lookup "query" data = None ->
  exists insights,
    analyze generate_content json_loads now data = Ok (PDict insights)
    /\ Dict.lookup "query" insights
       = Some (if is_ok (_prepare_context data) then PStr "Unknown" else PNone).
Proof.
  intros Q. destruct (_prepare_context data) as [context | e] eqn:P.
  - destruct (AnalyzerFacts.prepare_context_len _ _ P) as [n Hn].
    rewrite (AnalyzerFacts.analyze_ok _ _ now data context n P Hn).
    eexists. split; [reflexivity |]. cbn. unfold Dict.get. now rewrite Q.
  - rewrite (AnalyzerFacts.analyze_error _ _ now data e P).
    eexists. split; [reflexivity |]. cbn. unfold Dict.get. now rewrite Q.
Qed.

Lemma missing_query_differs_between_paths_witness :
  exists insights,
    analyze unreachable Json.loads "2024-05-01T10:00:05" [("sources", PNone)]
    = Ok (PDict insights)
    /\ Dict.lookup "query" insights = Some PNone.
Proof.
  apply (missing_query_differs_between_paths unreachable Json.loads
           "2024-05-01T10:00:05" [("sources", PNone)] eq_refl).
Defined.

End AnalyzerMore.

(** ** The name of the report file *)

Module MainFacts.
Import Main PipelineSpec.

Lemma lower_plain s :
  Str.mem_char " " s = false ->
  all_chars (fun c => negb (Ascii.eqb c " ") && negb (Str.is_upper c)) (Str.lower s) = true.
Proof.
  unfold Str.lower. induction s as [| c s IH]; cbn; [reflexivity |].
  intros H. apply orb_false_elim in H as [Hc Hs].
  rewrite (StrFacts.lower_char_plain c Hc). now apply IH.
Qed.



(** X15. For a query of ASCII characters, the name of the report file
    starts with [report_], ends with [.md], is 10 characters longer than
    the query, and has no space and no upper-case letter. *)
Theorem report_filename_is_plain (search_query : string) :
  all_chars is_ascii search_query = true ->
  all_chars (fun c => negb (Ascii.eqb c " ") && negb (Str.is_upper c))
    (report_filename search_query) = true
  /\ String.length (report_filename search_query) = 10 + String.length search_query
  /\ exists stem,
       report_filename search_query = "report_" ++ stem ++ ".md"
       /\ String.length stem = String.length search_query.
Proof.
  intros _.
  assert (L : String.length (Str.lower (Str.replace " " "_" search_query))
              = String.length search_query).
  { rewrite <- (StrFacts.replace_space_length search_query).
    unfold Str.lower. induction (Str.replace " " "_" search_query) as [| c r IH];
      cbn; [reflexivity | now rewrite IH]. }
  unfold report_filename. split; [| split].
  - rewrite !StrFacts.all_chars_append.
    rewrite (lower_plain _ (StrFacts.replace_space_no_space search_query)).
    reflexivity.
  - rewrite !StrFacts.length_append, L. cbn. lia.
  - eexists. split; [reflexivity | exact L].
Qed.

Lemma report_filename_is_plain_witness :
  all_chars (fun c => negb (Ascii.eqb c " ") && negb (Str.is_upper c))
    (report_filename "Acme Corp") = true
  /\ report_filename "Acme Corp" = "report_acme_corp.md".
Proof.
  split; [| reflexivity].
  apply (proj1 (report_filename_is_plain "Acme Corp" eq_refl)).
Defined.



End MainFacts.
